(** * FuzzForge workflow orchestration: a shallow embedding

    The Temporal workflows of [backend/toolbox/workflows] are sequences of
    activity invocations that fill in a [results] dictionary.  They are
    embedded here as computations in a small state-and-exception monad:
    the state holds the [results] dictionary and the history of activity
    invocations, and the outcome of every activity (a returned value or a
    raised exception) is supplied by an environment.  Logging and [print]
    have no effect on the results and are left out. *)

From Stdlib Require Import ZArith.
From stdpp Require Import base option list strings gmap pretty.

Local Open Scope Z_scope.
Local Open Scope string_scope.

(** ** Python values *)

(** The values stored under the keys of [summary] and [metadata] mappings and
    of step records: JSON scalars and lists of strings. *)
Inductive pyval :=
  | PNone
  | PBool (b : bool)
  | PInt (z : Z)
  | PStr (s : string)
  | PList (l : list string).

#[global] Instance pyval_eq_dec : EqDecision pyval.
Proof. solve_decision. Defined.

Inductive exn :=
  | ActivityError (msg : string)
  | ValueError (msg : string)
  | KeyError (msg : string)
  | IndexError (msg : string)
  | TypeError (msg : string).

#[global] Instance exn_eq_dec : EqDecision exn.
Proof. solve_decision. Defined.

(** [str(e)] *)
Definition str (e : exn) : string :=
  match e with
  | ActivityError msg | ValueError msg | KeyError msg
  | IndexError msg | TypeError msg => msg
  end.

(** [type(v).__name__], as it appears in the message of a [TypeError]. *)
Definition type_name (v : pyval) : string :=
  match v with
  | PNone => "NoneType"
  | PBool _ => "bool"
  | PInt _ => "int"
  | PStr _ => "str"
  | PList _ => "list"
  end.

(** [v == n] for an integer literal [n]: [bool] is a subtype of [int], values
    of the other types are never equal to an integer. *)
Definition py_eq_int (v : pyval) (n : Z) : bool :=
  match v with
  | PInt z => Z.eqb z n
  | PBool b => Z.eqb (Z.b2z b) n
  | _ => false
  end.

(** [v > n] for an integer literal [n]: ordering [None], a string or a list
    against an integer raises [TypeError]. *)
Definition py_gt_int (v : pyval) (n : Z) : exn + bool :=
  match v with
  | PInt z => inr (Z.ltb n z)
  | PBool b => inr (Z.ltb n (Z.b2z b))
  | _ => inl (TypeError ("'>' not supported between instances of '"
                          +:+ type_name v +:+ "' and 'int'"))
  end.

(** [d.get(key)]: [None] for a missing key. *)
Definition dict_get (d : gmap string pyval) (key : string) : pyval :=
  default PNone (d !! key).

(** [d.get(key, dflt)] *)
Definition dict_get_default (d : gmap string pyval) (key : string)
    (dflt : pyval) : pyval :=
  default dflt (d !! key).

(** [l[i]], raising [IndexError] out of range. *)
Definition list_index {A} (l : list A) (i : nat) : exn + A :=
  match l !! i with
  | Some x => inr x
  | None => inl (IndexError "list index out of range")
  end.

(** ** Findings, activity results and the run record *)

Record Finding := {
  title : string;
  description : string;
  severity : string;
  category : string;
  metadata : gmap string pyval
}.

#[global] Instance Finding_eq_dec : EqDecision Finding.
Proof. solve_decision. Defined.

(** The dictionary an analysis activity returns ([ModuleResult.dict()]), and
    also the literal [{"findings": ...}] handed to the report activity: a key
    that is absent is [None] here. *)
Record ActivityResult := {
  ar_status : option string;
  ar_findings : option (list Finding);
  ar_summary : option (gmap string pyval);
  ar_metadata : option (gmap string pyval);
  ar_error : option string
}.

#[global] Instance ActivityResult_eq_dec : EqDecision ActivityResult.
Proof. solve_decision. Defined.

(** [r.get("findings", [])] *)
Definition get_findings (r : ActivityResult) : list Finding :=
  default [] (ar_findings r).

(** [r.get("summary", {})] *)
Definition get_summary (r : ActivityResult) : gmap string pyval :=
  default ∅ (ar_summary r).

(** The [results] dictionary of a workflow.  [None] is a key not (yet) set;
    [results_url] may be set to Python's [None], which is [Some None]. *)
Record RunRecord := {
  workflow_id : string;
  target_id : string;
  status : string;
  steps : list (gmap string pyval);
  sarif : option (gmap string pyval);
  error : option string;
  message : option string;
  findings : option (list Finding);
  summary : option (gmap string pyval);
  results_url : option (option string)
}.

Definition set_status (v : string) (r : RunRecord) : RunRecord :=
  {| workflow_id := workflow_id r; target_id := target_id r; status := v;
     steps := steps r; sarif := sarif r; error := error r;
     message := message r; findings := findings r; summary := summary r;
     results_url := results_url r |}.

Definition append_step (v : gmap string pyval) (r : RunRecord) : RunRecord :=
  {| workflow_id := workflow_id r; target_id := target_id r;
     status := status r; steps := steps r ++ [v]; sarif := sarif r;
     error := error r; message := message r; findings := findings r;
     summary := summary r; results_url := results_url r |}.

Definition set_sarif (v : gmap string pyval) (r : RunRecord) : RunRecord :=
  {| workflow_id := workflow_id r; target_id := target_id r;
     status := status r; steps := steps r; sarif := Some v;
     error := error r; message := message r; findings := findings r;
     summary := summary r; results_url := results_url r |}.

Definition set_error (v : string) (r : RunRecord) : RunRecord :=
  {| workflow_id := workflow_id r; target_id := target_id r;
     status := status r; steps := steps r; sarif := sarif r;
     error := Some v; message := message r; findings := findings r;
     summary := summary r; results_url := results_url r |}.

Definition set_message (v : string) (r : RunRecord) : RunRecord :=
  {| workflow_id := workflow_id r; target_id := target_id r;
     status := status r; steps := steps r; sarif := sarif r;
     error := error r; message := Some v; findings := findings r;
     summary := summary r; results_url := results_url r |}.

Definition set_findings (v : list Finding) (r : RunRecord) : RunRecord :=
  {| workflow_id := workflow_id r; target_id := target_id r;
     status := status r; steps := steps r; sarif := sarif r;
     error := error r; message := message r; findings := Some v;
     summary := summary r; results_url := results_url r |}.

Definition set_summary (v : gmap string pyval) (r : RunRecord) : RunRecord :=
  {| workflow_id := workflow_id r; target_id := target_id r;
     status := status r; steps := steps r; sarif := sarif r;
     error := error r; message := message r; findings := findings r;
     summary := Some v; results_url := results_url r |}.

Definition set_results_url (v : option string) (r : RunRecord) : RunRecord :=
  {| workflow_id := workflow_id r; target_id := target_id r;
     status := status r; steps := steps r; sarif := sarif r;
     error := error r; message := message r; findings := findings r;
     summary := summary r; results_url := Some v |}.

(** ** Activities *)

(** The [config] dictionaries of the cracking modules, typed by the modules'
    input schemas. *)
Record hashid_config := { hash : option string }.

Record hashcat_config := { hc_hash : string; hash_type : pyval }.

#[global] Instance hashid_config_eq_dec : EqDecision hashid_config.
Proof. solve_decision. Defined.

#[global] Instance hashcat_config_eq_dec : EqDecision hashcat_config.
Proof. solve_decision. Defined.

(** One constructor per activity name passed to [workflow.execute_activity],
    carrying the [args] list. *)
Inductive call :=
  | get_target (target workflow_run workspace_isolation : string)
  | run_hashid (workspace_path : string) (config : hashid_config)
  | run_hashcat (workspace_path : string) (config : hashcat_config)
  | generate_sarif_report_activity (analysis_results : ActivityResult)
      (config : gmap string pyval) (workspace_path : string)
  | run_capa (workspace_path : string) (config : gmap string pyval)
  | generate_sarif_report_binary_analysis (analysis_results : ActivityResult)
      (config : gmap string pyval) (workspace_path : string)
  | scan_with_llm (workspace_path : string) (config : gmap string pyval)
  | llm_generate_sarif (scan_findings : list Finding)
      (config : gmap string pyval)
  | upload_results (workflow : string) (payload : ActivityResult)
      (format : string)
  | cleanup_cache (workspace_path workspace_isolation : string).

#[global] Instance call_eq_dec : EqDecision call.
Proof. solve_decision. Defined.

(** What each activity hands back to the workflow when it returns. *)
Definition returns (c : call) : Type :=
  match c with
  | get_target _ _ _ => string
  | run_hashid _ _ | run_hashcat _ _ | run_capa _ _ | scan_with_llm _ _ =>
      ActivityResult
  | generate_sarif_report_activity _ _ _
  | generate_sarif_report_binary_analysis _ _ _
  | llm_generate_sarif _ _ => gmap string pyval
  | upload_results _ _ _ => string
  | cleanup_cache _ _ => unit
  end.

(** The world outside the workflow: for every invocation, after the retry
    policy has run its course, either the value returned or the exception
    raised into the workflow. *)
Definition Activities : Type := ∀ c : call, exn + returns c.

(** ** The workflow monad *)

(** An activity invocation, with the value of [results["status"]] at the
    moment it is made. *)
Record event := { ev_call : call; ev_status : string }.

Record wstate := { results : RunRecord; history : list event }.

Definition W (A : Type) : Type := wstate → (exn + A) * wstate.

Definition ret {A} (x : A) : W A := λ s, (inr x, s).

Definition raise {A} (e : exn) : W A := λ s, (inl e, s).

Definition bind {A B} (m : W A) (k : A → W B) : W B :=
  λ s, match m s with
       | (inr x, s') => k x s'
       | (inl e, s') => (inl e, s')
       end.

Notation "'let*' x ':=' m 'in' k" := (bind m (λ x, k))
  (at level 10, x name, m at level 100, k at level 200).

Notation "m >> k" := (bind m (λ _, k))
  (at level 100, k at level 200, right associativity).

(** [try: m except Exception as e: h e] *)
Definition try_except {A} (m : W A) (h : exn → W A) : W A :=
  λ s, match m s with
       | (inr x, s') => (inr x, s')
       | (inl e, s') => h e s'
       end.

(** A Python expression that may raise. *)
Definition lift {A} (x : exn + A) : W A := λ s, (x, s).

(** [results[...] = ...] and [results["steps"].append(...)] *)
Definition update (f : RunRecord → RunRecord) : W unit :=
  λ s, (inr tt, {| results := f (results s); history := history s |}).

(** [return results] *)
Definition return_results : W RunRecord := λ s, (inr (results s), s).

(** [await workflow.execute_activity(name, args=[...])] *)
Definition execute_activity (env : Activities) (c : call) : W (returns c) :=
  λ s, (env c,
        {| results := results s;
           history := history s
                      ++ [{| ev_call := c; ev_status := status (results s) |}] |}).

(** [workflow.info()] *)
Record WorkflowInfo := { info_workflow_id : string; info_run_id : string }.

(** The [results] dictionary as first assigned in [run]. *)
Definition initial_results (wid tid : string) : RunRecord :=
  {| workflow_id := wid; target_id := tid; status := "running"; steps := [];
     sarif := None; error := None; message := None; findings := None;
     summary := None; results_url := None |}.

(** The handler closing every [run]:
    [except Exception as e: ...; raise]. *)
Definition workflow_failed {A} (e : exn) : W A :=
  update (set_status "error") >>
  update (set_error (str e)) >>
  update (append_step {[ "step" := PStr "error";
                         "status" := PStr "failed";
                         "error" := PStr (str e) ]}) >>
  raise e.

(** Run a workflow body from a fresh [results] dictionary. *)
Definition start {A} (r0 : RunRecord) (m : W A) : (exn + A) * wstate :=
  m {| results := r0; history := [] |}.

(** ** Hash cracking workflow ([workflows/hash_cracking/workflow.py]) *)

Module HashCrackingWorkflow.

(** [hashid_results.get("summary", {}).get("total_matches", 0)] *)
Definition total_matches_of (hashid_results : ActivityResult) : pyval :=
  dict_get_default (get_summary hashid_results) "total_matches" (PInt 0).

(** [_cleanup]: the cache cleanup, whose failure is only logged. *)
Definition _cleanup (env : Activities) (target_path : string) : W unit :=
  try_except
    (let* _ := execute_activity env (cleanup_cache target_path "isolated") in
     ret tt)
    (λ _, ret tt).

(** The synthetic finding of the branch [total_matches == 0]. *)
Definition no_match_finding (target_hash : string) : Finding :=
  {| title := "No Hash Type Identified";
     description := "The hash '" +:+ target_hash
       +:+ "' could not be identified. No matching hash type was found.";
     severity := "warning";
     category := "hash_identification";
     metadata := {[ "hash_input" := PStr target_hash;
                    "status" := PStr "no_match" ]} |}.

(** The synthetic finding of a single match without [hashcat_mode]. *)
Definition no_mode_finding (first : Finding) : Finding :=
  {| title := "No Hashcat Mode Available";
     description := "The hash type '" +:+ title first
       +:+ "' was identified but has no corresponding hashcat mode.";
     severity := "warning";
     category := "hash_identification";
     metadata := metadata first |}.

(** The literal [{"findings": fs}] passed to the report activity. *)
Definition findings_only (fs : list Finding) : ActivityResult :=
  {| ar_status := None; ar_findings := Some fs; ar_summary := None;
     ar_metadata := None; ar_error := None |}.

(** Steps 3 to 6 of [run], from [hashcat_config] to the final
    [return results]. *)
Definition crack (env : Activities) (wid target_hash target_path : string)
    (hashcat_mode : pyval) : W RunRecord :=
  let hashcat_config :=
    {| hc_hash := target_hash; hash_type := hashcat_mode |} in
  let* hashcat_results :=
    execute_activity env (run_hashcat target_path hashcat_config) in
  update (append_step
    {[ "step" := PStr "hash_cracking";
       "status" := PStr (default "unknown" (ar_status hashcat_results));
       "plaintext" := dict_get_default (get_summary hashcat_results)
                        "plaintext" (PStr "") ]}) >>
  try_except
    (let* sarif_report := execute_activity env
       (generate_sarif_report_activity hashcat_results ∅ target_path) in
     update (set_sarif sarif_report))
    (λ _, update (set_sarif ∅)) >>
  try_except
    (let* url := execute_activity env
       (upload_results wid hashcat_results "json") in
     update (set_results_url (Some url)))
    (λ _, update (set_results_url None)) >>
  _cleanup env target_path >>
  update (set_status "success") >>
  update (set_findings (get_findings hashcat_results)) >>
  update (set_summary (get_summary hashcat_results)) >>
  return_results.

(** The body of the [try] block of [run]. *)
Definition body (env : Activities) (info : WorkflowInfo)
    (target target_hash : string) (target_hash_type : option Z)
    : W RunRecord :=
  let wid := info_workflow_id info in
  let run_id := info_run_id info in
  let* target_path :=
    execute_activity env (get_target target run_id "isolated") in
  update (append_step {[ "step" := PStr "download_target";
                         "status" := PStr "success";
                         "target_path" := PStr target_path ]}) >>
  match target_hash_type with
  | Some mode => crack env wid target_hash target_path (PInt mode)
  | None =>
      let hashid_config := {| hash := Some target_hash |} in
      let* hashid_results :=
        execute_activity env (run_hashid target_path hashid_config) in
      update (append_step
        {[ "step" := PStr "hash_identification";
           "status" := PStr "success";
           "total_matches" := total_matches_of hashid_results ]}) >>
      let found := get_findings hashid_results in
      let total_matches := total_matches_of hashid_results in
      if py_eq_int total_matches 0 then
        let no_match_findings := [no_match_finding target_hash] in
        let* sarif_report := execute_activity env
          (generate_sarif_report_activity
             (findings_only no_match_findings) ∅ target_path) in
        update (set_sarif sarif_report) >>
        update (set_status "aborted") >>
        update (set_error "No matching hash type found") >>
        update (set_findings no_match_findings) >>
        _cleanup env target_path >>
        return_results
      else
        let* several := lift (py_gt_int total_matches 1) in
        if several : bool then
          let* sarif_report := execute_activity env
            (generate_sarif_report_activity hashid_results ∅ target_path) in
          update (set_sarif sarif_report) >>
          update (set_status "needs_selection") >>
          update (set_message "Multiple hash types identified. Please re-run with a specific hash_type parameter.") >>
          update (set_findings found) >>
          update (set_summary (get_summary hashid_results)) >>
          _cleanup env target_path >>
          return_results
        else
          let* first := lift (list_index found 0) in
          let hashcat_mode := dict_get (metadata first) "hashcat_mode" in
          match hashcat_mode with
          | PNone =>
              let no_mode_findings := [no_mode_finding first] in
              let* sarif_report := execute_activity env
                (generate_sarif_report_activity
                   (findings_only no_mode_findings) ∅ target_path) in
              update (set_sarif sarif_report) >>
              update (set_status "aborted") >>
              update (set_error "No hashcat mode available for identified hash type") >>
              update (set_findings no_mode_findings) >>
              _cleanup env target_path >>
              return_results
          | _ => crack env wid target_hash target_path hashcat_mode
          end
  end.

(** [HashCrackingWorkflow.run] *)
Definition run (env : Activities) (info : WorkflowInfo)
    (target target_hash : string) (target_hash_type : option Z)
    : (exn + RunRecord) * wstate :=
  start (initial_results (info_workflow_id info) target)
    (try_except (body env info target target_hash target_hash_type)
       workflow_failed).

End HashCrackingWorkflow.

(** ** Binary analysis workflow ([workflows/binary_analysis/workflow.py]) *)

Module BinaryAnalysisWorkflow.

Definition body (env : Activities) (info : WorkflowInfo)
    (target target_file : string) : W RunRecord :=
  let wid := info_workflow_id info in
  let run_id := info_run_id info in
  let* target_path :=
    execute_activity env (get_target target run_id "isolated") in
  update (append_step {[ "step" := PStr "download_target";
                         "status" := PStr "success";
                         "target_path" := PStr target_path ]}) >>
  let fuzz_config : gmap string pyval :=
    {[ "target_file" := PStr target_file ]} in
  let* fuzz_results :=
    execute_activity env (run_capa target_path fuzz_config) in
  update (append_step
    {[ "step" := PStr "fuzzing";
       "status" := PStr "success";
       "capabilities_found" := dict_get_default (get_summary fuzz_results)
                                 "capabilities_found" (PInt 0);
       "execution_time" := dict_get_default (get_summary fuzz_results)
                             "execution_time" (PInt 0) ]}) >>
  try_except
    (let* sarif_report := execute_activity env
       (generate_sarif_report_binary_analysis fuzz_results ∅ target_path) in
     update (set_sarif sarif_report))
    (λ _, update (set_sarif ∅)) >>
  try_except
    (let* url := execute_activity env
       (upload_results wid fuzz_results "json") in
     update (set_results_url (Some url)))
    (λ _, update (set_results_url None)) >>
  try_except
    (let* _ := execute_activity env (cleanup_cache target_path "isolated") in
     ret tt)
    (λ _, ret tt) >>
  update (set_status "success") >>
  update (set_findings (get_findings fuzz_results)) >>
  update (set_summary (get_summary fuzz_results)) >>
  return_results.

(** [BinaryAnalysisWorkflow.run] *)
Definition run (env : Activities) (info : WorkflowInfo)
    (target target_file : string) : (exn + RunRecord) * wstate :=
  start (initial_results (info_workflow_id info) target)
    (try_except (body env info target target_file) workflow_failed).

End BinaryAnalysisWorkflow.

(** ** LLM secret detection workflow
    ([workflows/llm_secret_detection/workflow.py]) *)

Module LlmSecretDetectionWorkflow.

(** The optional parameters of [run] after [target_id]. *)
Record Params := {
  agent_url : option string;
  llm_model : option string;
  llm_provider : option string;
  max_files : option Z;
  max_file_size : option Z;
  timeout : option Z;
  file_patterns : option (list string)
}.

(** [if x: config[key] = x], for each type of parameter: [None], the empty
    string, zero and the empty list are falsy. *)
Definition put_str (key : string) (x : option string)
    (config : gmap string pyval) : gmap string pyval :=
  match x with
  | Some s => if decide (s = "") then config else <[key := PStr s]> config
  | None => config
  end.

Definition put_int (key : string) (x : option Z)
    (config : gmap string pyval) : gmap string pyval :=
  match x with
  | Some z => if decide (z = 0) then config else <[key := PInt z]> config
  | None => config
  end.

Definition put_list (key : string) (x : option (list string))
    (config : gmap string pyval) : gmap string pyval :=
  match x with
  | Some l => if decide (l = []) then config else <[key := PList l]> config
  | None => config
  end.

Definition scan_config (p : Params) : gmap string pyval :=
  put_list "file_patterns" (file_patterns p)
    (put_int "timeout" (timeout p)
      (put_int "max_file_size" (max_file_size p)
        (put_int "max_files" (max_files p)
          (put_str "llm_provider" (llm_provider p)
            (put_str "llm_model" (llm_model p)
              (put_str "agent_url" (agent_url p) ∅)))))).

(** [llm_model or 'gpt-4o-mini'] *)
Definition model_or_default (x : option string) : string :=
  match x with
  | Some s => if decide (s = "") then "gpt-4o-mini" else s
  | None => "gpt-4o-mini"
  end.

Definition body (env : Activities) (info : WorkflowInfo)
    (target : string) (p : Params) : W RunRecord :=
  let wid := info_workflow_id info in
  let run_id := info_run_id info in
  let* target_path :=
    execute_activity env (get_target target run_id "shared") in
  update (append_step {[ "step" := PStr "download";
                         "status" := PStr "success";
                         "target_path" := PStr target_path ]}) >>
  let config := scan_config p in
  let* scan_results :=
    execute_activity env (scan_with_llm target_path config) in
  let findings_count := Z.of_nat (length (get_findings scan_results)) in
  update (append_step {[ "step" := PStr "llm_scan";
                         "status" := PStr "success";
                         "secrets_found" := PInt findings_count ]}) >>
  let* sarif_report := execute_activity env
    (llm_generate_sarif (get_findings scan_results)
       {[ "tool_name" := PStr ("llm-secret-detector ("
                                +:+ model_or_default (llm_model p) +:+ ")");
          "tool_version" := PStr "1.0.0" ]}) in
  try_except
    (let* url := execute_activity env
       (upload_results wid scan_results "json") in
     update (set_results_url (Some url)))
    (λ _, update (set_results_url None)) >>
  try_except
    (let* _ := execute_activity env (cleanup_cache target_path "shared") in
     ret tt)
    (λ _, ret tt) >>
  update (set_status "success") >>
  update (set_findings (get_findings scan_results)) >>
  update (set_summary (get_summary scan_results)) >>
  update (set_sarif (if decide (sarif_report = ∅) then ∅ else sarif_report)) >>
  return_results.

(** [LlmSecretDetectionWorkflow.run]; its [results] start with an empty
    [findings] list. *)
Definition run (env : Activities) (info : WorkflowInfo)
    (target : string) (p : Params) : (exn + RunRecord) * wstate :=
  start (set_findings [] (initial_results (info_workflow_id info) target))
    (try_except (body env info target p) workflow_failed).

End LlmSecretDetectionWorkflow.

(** ** Hash identification module ([modules/cracking/hashid_identifier.py]) *)

Module HashIdIdentifier.

(** The named tuples yielded by [HashID.identifyHash]. *)
Record HashInfo := {
  name : string;
  hashcat : option Z;
  john : option string;
  extended : bool
}.

(** Modelled from the spec: [BaseModule.create_finding] of
    [toolbox/modules/base.py], which is not among the sources.  A Finding
    is [{title, description, severity, category, metadata}], built from the
    keyword arguments. *)
Definition create_finding (title description severity category : string)
    (metadata : gmap string pyval) : Finding :=
  {| title := title; description := description; severity := severity;
     category := category; metadata := metadata |}.

(** Modelled from the spec: [BaseModule.create_result] of
    [toolbox/modules/base.py], which is not among the sources.  An activity
    result is [{status, findings, summary, error?}], and the arguments that
    are passed are its entries.  What the base class stores for a summary or
    for metadata that is not passed is not in the sources: such an entry is
    recorded as absent, which [get_summary] reads as the empty mapping, as
    the workflows do with [.get("summary", {})]. *)
Definition create_result (findings : list Finding) (status : string)
    (summary metadata : option (gmap string pyval)) (error : option string)
    : ActivityResult :=
  {| ar_status := Some status; ar_findings := Some findings;
     ar_summary := summary; ar_metadata := metadata; ar_error := error |}.

Definition validate_config (config : hashid_config) : exn + bool :=
  match hash config with
  | Some (String _ _) => inr true
  | _ => inl (ValueError "'hash' must be provided for hash identification")
  end.

Definition opt_int (x : option Z) : pyval :=
  match x with Some z => PInt z | None => PNone end.

Definition opt_str (x : option string) : pyval :=
  match x with Some s => PStr s | None => PNone end.

(** The finding made in the loop over [enumerate(results)]. *)
Definition finding_of (hash_str : string) (idx : nat) (hash_info : HashInfo)
    : Finding :=
  create_finding
    ("Possible Hash Type: " +:+ name hash_info)
    ("The hash '" +:+ hash_str +:+ "' may be of type: " +:+ name hash_info)
    "info"
    "hash_identification"
    {[ "hash_input" := PStr hash_str;
       "identified_type" := PStr (name hash_info);
       "match_index" := PInt (Z.of_nat idx);
       "hashcat_mode" := opt_int (hashcat hash_info);
       "john_mode" := opt_str (john hash_info);
       "extended" := PBool (extended hash_info) ]}.

(** The [try] block of [execute].  [identifyHash] is the hashid library and
    [validate_workspace] the outcome of the inherited workspace check. *)
Definition identify (identifyHash : string → exn + list HashInfo)
    (validate_workspace : exn + unit) (config : hashid_config)
    : exn + ActivityResult :=
  match validate_config config with
  | inl exc => inl exc
  | inr _ =>
    match validate_workspace with
    | inl exc => inl exc
    | inr _ =>
      match hash config with
      | None => inl (KeyError "'hash'")
      | Some hash_str =>
        match identifyHash hash_str with
        | inl exc => inl exc
        | inr hash_infos =>
            let found := imap (finding_of hash_str) hash_infos in
            let summary : gmap string pyval :=
              {[ "possible_hash_types" := PList (map name hash_infos);
                 "total_matches" := PInt (Z.of_nat (length hash_infos)) ]} in
            inr (create_result found "success" (Some summary)
                   (Some {[ "hash_length" :=
                              PInt (Z.of_nat (String.length hash_str));
                            "hash_input" := PStr hash_str ]})
                   None)
        end
      end
    end
  end.

(** [HashIdIdentifier.execute]: any exception becomes a [failed] result. *)
Definition execute (identifyHash : string → exn + list HashInfo)
    (validate_workspace : exn + unit) (config : hashid_config)
    : ActivityResult :=
  match identify identifyHash validate_workspace config with
  | inr result => result
  | inl exc => create_result [] "failed" None None (Some (str exc))
  end.

End HashIdIdentifier.

(** ** Pipelines and observations on a run *)

(** The pipeline kinds whose workflows are defined above, with the arguments
    of their [run] methods. *)
Inductive Pipeline :=
  | HashCracking (target target_hash : string) (target_hash_type : option Z)
  | BinaryAnalysis (target target_file : string)
  | LlmSecretDetection (target : string)
      (params : LlmSecretDetectionWorkflow.Params).

Definition run_pipeline (env : Activities) (info : WorkflowInfo) (p : Pipeline)
    : (exn + RunRecord) * wstate :=
  match p with
  | HashCracking target target_hash target_hash_type =>
      HashCrackingWorkflow.run env info target target_hash target_hash_type
  | BinaryAnalysis target target_file =>
      BinaryAnalysisWorkflow.run env info target target_file
  | LlmSecretDetection target params =>
      LlmSecretDetectionWorkflow.run env info target params
  end.

(** The activities invoked during a run, in order. *)
Definition calls (st : wstate) : list call := map ev_call (history st).

Definition is_run_hashid (c : call) : bool :=
  match c with run_hashid _ _ => true | _ => false end.

Definition is_run_hashcat (c : call) : bool :=
  match c with run_hashcat _ _ => true | _ => false end.

Definition is_cleanup_cache (c : call) : bool :=
  match c with cleanup_cache _ _ => true | _ => false end.

(** How many times an activity of the given kind was invoked. *)
Definition invocations (kind : call → bool) (st : wstate) : nat :=
  length (List.filter kind (calls st)).

(** The entry of a step record, e.g. its ["status"]. *)
Definition step_field (key : string) (step : gmap string pyval) : pyval :=
  dict_get step key.

(** Two worlds that differ at most in what the identification returns. *)
Definition same_but_hashid (env env' : Activities) : Prop :=
  ∀ c, is_run_hashid c = false → env' c = env c.

(** ** Concrete worlds *)

(** The outcome of each activity in a concrete world, whatever its
    arguments. *)
Record Scenario := {
  sc_get_target : exn + string;
  sc_run_hashid : exn + ActivityResult;
  sc_run_hashcat : exn + ActivityResult;
  sc_run_capa : exn + ActivityResult;
  sc_scan_with_llm : exn + ActivityResult;
  sc_report : exn + gmap string pyval;
  sc_upload_results : exn + string;
  sc_cleanup_cache : exn + unit
}.

Definition world (sc : Scenario) : Activities :=
  λ c, match c return exn + returns c with
       | get_target _ _ _ => sc_get_target sc
       | run_hashid _ _ => sc_run_hashid sc
       | run_hashcat _ _ => sc_run_hashcat sc
       | run_capa _ _ => sc_run_capa sc
       | scan_with_llm _ _ => sc_scan_with_llm sc
       | generate_sarif_report_activity _ _ _
       | generate_sarif_report_binary_analysis _ _ _
       | llm_generate_sarif _ _ => sc_report sc
       | upload_results _ _ _ => sc_upload_results sc
       | cleanup_cache _ _ => sc_cleanup_cache sc
       end.

Definition info0 : WorkflowInfo :=
  {| info_workflow_id := "wf-1"; info_run_id := "run-1" |}.

Definition md5_hash : string := "5f4dcc3b5aa765d61d8327deb882cf99".

Definition md5_info : HashIdIdentifier.HashInfo :=
  {| HashIdIdentifier.name := "MD5"; HashIdIdentifier.hashcat := Some 0;
     HashIdIdentifier.john := Some "raw-md5";
     HashIdIdentifier.extended := false |}.

Definition md4_info : HashIdIdentifier.HashInfo :=
  {| HashIdIdentifier.name := "MD4"; HashIdIdentifier.hashcat := Some 900;
     HashIdIdentifier.john := Some "raw-md4";
     HashIdIdentifier.extended := false |}.

Definition md2_info : HashIdIdentifier.HashInfo :=
  {| HashIdIdentifier.name := "MD2"; HashIdIdentifier.hashcat := None;
     HashIdIdentifier.john := Some "md2";
     HashIdIdentifier.extended := false |}.

(** What the identification module returns for [md5_hash] when the hashid
    library yields the given candidates. *)
Definition identified (candidates : list HashIdIdentifier.HashInfo)
    : ActivityResult :=
  HashIdIdentifier.execute (λ _, inr candidates) (inr tt)
    {| hash := Some md5_hash |}.

(** What it returns when the library itself raises. *)
Definition identification_failed : ActivityResult :=
  HashIdIdentifier.execute (λ _, inl (TypeError "expected string"))
    (inr tt) {| hash := Some md5_hash |}.

(** The failed result of the identification in the shape of the activity
    contract, whose summary is a mapping: the empty one. *)
Definition identification_failed_with_summary : ActivityResult :=
  {| ar_status := Some "failed"; ar_findings := Some [];
     ar_summary := Some ∅; ar_metadata := Some ∅;
     ar_error := Some "expected string" |}.

Definition cracked : ActivityResult :=
  {| ar_status := Some "success";
     ar_findings := Some
       [{| title := "Cracked Hash";
           description := "The hash '" +:+ md5_hash
                          +:+ "' was cracked to: password";
           severity := "critical"; category := "cracking";
           metadata := {[ "hash_input" := PStr md5_hash;
                          "hash_type" := PStr "0";
                          "plaintext" := PStr "password" ]} |}];
     ar_summary := Some {[ "plaintext" := PStr "password" ]};
     ar_metadata := Some ∅; ar_error := None |}.

(** A result of the capability analysis. *)
Definition capabilities : ActivityResult :=
  {| ar_status := Some "success";
     ar_findings := Some
       [{| title := "Capability: encrypt data using RC4";
           description := "The binary can encrypt data using RC4";
           severity := "medium"; category := "binary_capability";
           metadata := {[ "namespace" := PStr "data-manipulation" ]} |}];
     ar_summary := Some {[ "capabilities_found" := PInt 1;
                           "execution_time" := PInt 3 ]};
     ar_metadata := Some ∅; ar_error := None |}.

(** A result of the LLM scan. *)
Definition secrets : ActivityResult :=
  {| ar_status := Some "success";
     ar_findings := Some
       [{| title := "Hardcoded API key";
           description := "An API key is assigned in config.py";
           severity := "high"; category := "secret_detection";
           metadata := {[ "file" := PStr "config.py" ]} |}];
     ar_summary := Some {[ "total_secrets" := PInt 1 ]};
     ar_metadata := Some ∅; ar_error := None |}.


(** Every activity returns; the identification finds what is given. *)
Definition all_fine (candidates : list HashIdIdentifier.HashInfo)
    : Scenario :=
  {| sc_get_target := inr "/cache/run-1";
     sc_run_hashid := inr (identified candidates);
     sc_run_hashcat := inr cracked;
     sc_run_capa := inr capabilities;
     sc_scan_with_llm := inr secrets;
     sc_report := inr {[ "version" := PStr "2.1.0" ]};
     sc_upload_results := inr "s3://results/wf-1.json";
     sc_cleanup_cache := inr tt |}.

Definition with_get_target (x : exn + string) (sc : Scenario) : Scenario :=
  {| sc_get_target := x; sc_run_hashid := sc_run_hashid sc;
     sc_run_hashcat := sc_run_hashcat sc; sc_run_capa := sc_run_capa sc;
     sc_scan_with_llm := sc_scan_with_llm sc; sc_report := sc_report sc;
     sc_upload_results := sc_upload_results sc;
     sc_cleanup_cache := sc_cleanup_cache sc |}.

Definition with_run_hashid (x : exn + ActivityResult) (sc : Scenario)
    : Scenario :=
  {| sc_get_target := sc_get_target sc; sc_run_hashid := x;
     sc_run_hashcat := sc_run_hashcat sc; sc_run_capa := sc_run_capa sc;
     sc_scan_with_llm := sc_scan_with_llm sc; sc_report := sc_report sc;
     sc_upload_results := sc_upload_results sc;
     sc_cleanup_cache := sc_cleanup_cache sc |}.


Definition with_report (x : exn + gmap string pyval) (sc : Scenario)
    : Scenario :=
  {| sc_get_target := sc_get_target sc; sc_run_hashid := sc_run_hashid sc;
     sc_run_hashcat := sc_run_hashcat sc; sc_run_capa := sc_run_capa sc;
     sc_scan_with_llm := sc_scan_with_llm sc; sc_report := x;
     sc_upload_results := sc_upload_results sc;
     sc_cleanup_cache := sc_cleanup_cache sc |}.

Definition with_upload_results (x : exn + string) (sc : Scenario)
    : Scenario :=
  {| sc_get_target := sc_get_target sc; sc_run_hashid := sc_run_hashid sc;
     sc_run_hashcat := sc_run_hashcat sc; sc_run_capa := sc_run_capa sc;
     sc_scan_with_llm := sc_scan_with_llm sc; sc_report := sc_report sc;
     sc_upload_results := x; sc_cleanup_cache := sc_cleanup_cache sc |}.

Definition report_unavailable : exn :=
  ActivityError "generate_sarif_report_activity failed".

Definition no_params : LlmSecretDetectionWorkflow.Params :=
  {| LlmSecretDetectionWorkflow.agent_url := None;
     LlmSecretDetectionWorkflow.llm_model := None;
     LlmSecretDetectionWorkflow.llm_provider := None;
     LlmSecretDetectionWorkflow.max_files := None;
     LlmSecretDetectionWorkflow.max_file_size := None;
     LlmSecretDetectionWorkflow.timeout := None;
     LlmSecretDetectionWorkflow.file_patterns := None |}.

(** ** Symbolic execution of a run *)

(** Unfold a run into the tree of its activity outcomes. *)
Ltac unfold_run H :=
  cbv [run_pipeline
       HashCrackingWorkflow.run HashCrackingWorkflow.body
       HashCrackingWorkflow.crack HashCrackingWorkflow._cleanup
       BinaryAnalysisWorkflow.run BinaryAnalysisWorkflow.body
       LlmSecretDetectionWorkflow.run LlmSecretDetectionWorkflow.body
       start try_except bind execute_activity update lift ret raise
       return_results workflow_failed initial_results
       set_status append_step set_sarif set_error set_message set_findings
       set_summary set_results_url
       results history status steps sarif error message findings summary
       results_url workflow_id target_id] in H.

(** Split on the next outcome the run depends on. *)
Ltac split_run env H :=
  match type of H with
  | context [match ?x with _ => _ end] =>
      lazymatch x with
      | env _ => destruct x eqn:?
      | py_eq_int _ _ => destruct x eqn:?
      | py_gt_int _ _ => destruct x as [?|[|]] eqn:?
      | list_index _ _ => destruct x eqn:?
      | dict_get _ _ => destruct x eqn:?
      | decide _ => destruct x
      | _ => is_var x; destruct x
      end
  end.

Ltac run_cases env H :=
  repeat (cbv beta iota zeta in H;
          first [ progress simplify_eq | split_run env H ]).

(** Replace the outcomes met during the run by what the run recorded. *)
Ltac use_outcomes env :=
  repeat match goal with
         | H : env ?c = _ |- context [env ?c] => rewrite H
         end.

(** Two records of the outcome of one invocation agree. *)
Ltac same_outcome env :=
  repeat match goal with
         | H1 : env ?c = _, H2 : env ?c = _ |- _ =>
             rewrite H1 in H2; simplify_eq
         end.

(** Enter the run without a hint once the download and the identification
    are known to return. *)
Ltac enter_identified Hfetch Hid Hrun :=
  unfold_run Hrun;
  rewrite Hfetch in Hrun; cbv beta iota zeta in Hrun;
  rewrite Hid in Hrun; cbv beta iota zeta in Hrun.

(** Read off the final record and the history of a finished run. *)
Ltac observe :=
  cbn [results history status steps sarif error message findings summary
       results_url workflow_id target_id calls invocations map List.filter
       length ev_call ev_status is_run_hashcat is_run_hashid is_cleanup_cache
       app fst snd last].

(** ** Further observations on a run *)

(** The name under which an activity is invoked. *)
Definition activity_name (c : call) : string :=
  match c with
  | get_target _ _ _ => "get_target"
  | run_hashid _ _ => "run_hashid"
  | run_hashcat _ _ => "run_hashcat"
  | generate_sarif_report_activity _ _ _ => "generate_sarif_report_activity"
  | run_capa _ _ => "run_capa"
  | generate_sarif_report_binary_analysis _ _ _ =>
      "generate_sarif_report_binary_analysis"
  | scan_with_llm _ _ => "scan_with_llm"
  | llm_generate_sarif _ _ => "llm_generate_sarif"
  | upload_results _ _ _ => "upload_results"
  | cleanup_cache _ _ => "cleanup_cache"
  end.

(** The workspace path an activity is given, for those that take one. *)
Definition workspace_of (c : call) : option string :=
  match c with
  | run_hashid ws _ | run_hashcat ws _ | run_capa ws _ | scan_with_llm ws _
  | generate_sarif_report_activity _ _ ws
  | generate_sarif_report_binary_analysis _ _ ws
  | cleanup_cache ws _ => Some ws
  | get_target _ _ _ | llm_generate_sarif _ _ | upload_results _ _ _ => None
  end.

(** The [target_id] argument of a run and the isolation mode its workflow
    passes to [get_target]. *)
Definition target_of (p : Pipeline) : string :=
  match p with
  | HashCracking target _ _ | BinaryAnalysis target _
  | LlmSecretDetection target _ => target
  end.

Definition isolation_of (p : Pipeline) : string :=
  match p with
  | HashCracking _ _ _ | BinaryAnalysis _ _ => "isolated"
  | LlmSecretDetection _ _ => "shared"
  end.

(** The ["step"] entries of the step records, in order. *)
Definition step_names (r : RunRecord) : list pyval :=
  map (step_field "step") (steps r).

(** ** Python text and JSON values *)

(** The operations of Python's [str] whose result depends on the Unicode
    character database or on the code points of the text, rather than on its
    bytes: they are taken from the interpreter. *)
Record PythonText := {
  py_strip : string → string;           (* [s.strip()] *)
  py_lower : string → string;           (* [s.lower()] *)
  py_repr : string → string;            (* [repr(s)] *)
  py_prefix : nat → string → string     (* [s[:n]] *)
}.

(** [needle in hay] for two strings. *)
Fixpoint contains (needle hay : string) : bool :=
  if String.prefix needle hay then true
  else match hay with
       | EmptyString => false
       | String _ rest => contains needle rest
       end.

(** [", ".join(l)] and the like. *)
Fixpoint join (sep : string) (l : list string) : string :=
  match l with
  | [] => ""
  | [s] => s
  | s :: rest => s +:+ sep +:+ join sep rest
  end.

(** [str(v)] *)
Definition py_str (text : PythonText) (v : pyval) : string :=
  match v with
  | PNone => "None"
  | PBool true => "True"
  | PBool false => "False"
  | PInt z => pretty z
  | PStr s => s
  | PList l => "[" +:+ join ", " (map (py_repr text) l) +:+ "]"
  end.

(** The exceptions met in the modules: the classes the modules raise or
    tell apart in their [except] clauses, and the exceptions of the
    workflows. *)
Inductive exception :=
  | FileNotFoundError (msg : string)
  | RuntimeError (msg : string)
  | JSONDecodeError (msg : string)
  | AttributeError (msg : string)
  | UnicodeDecodeError (msg : string)
  | ImportError (msg : string)
  | TimeoutError (msg : string)
  | Raised (e : exn).

(** [str(exc)] *)
Definition exc_str (e : exception) : string :=
  match e with
  | FileNotFoundError msg | RuntimeError msg | JSONDecodeError msg
  | AttributeError msg | UnicodeDecodeError msg | ImportError msg
  | TimeoutError msg => msg
  | Raised e => str e
  end.

#[local] Set Warnings "-register-all".

(** The values [json.loads] returns.  The entries of a [JDict] are in the
    order of the document, which is the order of [items()]; its keys are
    distinct, as in a Python [dict]. *)
Inductive json :=
  | JNull
  | JBool (b : bool)
  | JInt (z : Z)
  | JFloat (literal : string)
  | JStr (s : string)
  | JList (l : list json)
  | JDict (d : list (string * json)).

(** [type(v).__name__] *)
Definition json_type_name (v : json) : string :=
  match v with
  | JNull => "NoneType"
  | JBool _ => "bool"
  | JInt _ => "int"
  | JFloat _ => "float"
  | JStr _ => "str"
  | JList _ => "list"
  | JDict _ => "dict"
  end.

(** The [AttributeError] of [v.attr] on a value without that attribute. *)
Definition no_attribute (v : json) (attr : string) : exception :=
  AttributeError ("'" +:+ json_type_name v +:+ "' object has no attribute '"
                  +:+ attr +:+ "'").

(** The entry of a key in the entries of a dictionary. *)
Fixpoint assoc (key : string) (d : list (string * json)) : option json :=
  match d with
  | [] => None
  | (k, v) :: rest => if decide (k = key) then Some v else assoc key rest
  end.

(** [v.get(key, dflt)], which raises on anything but a dictionary. *)
Definition json_get (v : json) (key : string) (dflt : json) : exception + json :=
  match v with
  | JDict d => inr (default dflt (assoc key d))
  | _ => inl (no_attribute v "get")
  end.

(** [v.items()] *)
Definition json_items (v : json) : exception + list (string * json) :=
  match v with
  | JDict d => inr d
  | _ => inl (no_attribute v "items")
  end.

(** A finished subprocess: [process.returncode] and what
    [process.communicate()] returned, as bytes. *)
Record Process := {
  returncode : Z;
  stdout : string;
  stderr : string
}.

(** ** Hashcat module ([modules/cracking/hashcat.py]) *)

Module Hashcat.

(** What [execute] meets outside itself. *)
Record World := {
  (** the inherited [validate_workspace(workspace)] *)
  validate_workspace : exception + unit;
  (** [str(workspace.resolve() / "jack.pot")] *)
  potfile_path : string;
  (** [asyncio.create_subprocess_exec] on the command, then
      [communicate()] *)
  create_subprocess_exec : list string → exception + Process;
  (** [bytes.decode(errors="ignore")] *)
  decode_ignore : string → string;
  (** the pot file after the process: [None] when it does not exist, else
      what opening it and [readline()] give *)
  potfile : option (exception + string)
}.

Definition validate_config (config : hashcat_config) : exception + bool :=
  if decide (hc_hash config = "") then
    inl (Raised (ValueError "'hash' must be provided for hashcat cracking"))
  else
    match hash_type config with
    | PNone =>
        inl (Raised
               (ValueError "'hash_type' must be provided for hashcat cracking"))
    | _ => inr true
    end.

(** The command line of hashcat. *)
Definition command (hash_str hash_type_str potfile_path : string)
    : list string :=
  ["hashcat"; "-a"; "0"; "-m"; hash_type_str; "--potfile-disable"; "--quiet";
   "--outfile"; potfile_path; "--outfile-format"; "2"; hash_str;
   "/usr/share/wordlists/SecLists-master/Passwords/Leaked-Databases/rockyou.txt.tar.gz"].

(** [a or b] on strings *)
Definition or_else (a b : string) : string :=
  if decide (a = "") then b else a.

(** The finding of a run of hashcat that exited with code 0. *)
Definition cracked_finding (hash_str hash_type_str plaintext : string)
    : Finding :=
  HashIdIdentifier.create_finding
    "Cracked Hash"
    ("The hash '" +:+ hash_str +:+ "' was cracked to: " +:+ plaintext)
    "critical"
    "cracking"
    {[ "hash_input" := PStr hash_str;
       "hash_type" := PStr hash_type_str;
       "plaintext" := PStr plaintext ]}.

(** The [try] block of [execute]. *)
Definition crack (text : PythonText) (w : World) (config : hashcat_config)
    : exception + ActivityResult :=
  match validate_config config with
  | inl exc => inl exc
  | inr _ =>
    match validate_workspace w with
    | inl exc => inl exc
    | inr _ =>
      let hash_str := hc_hash config in
      let hash_type_str := py_str text (hash_type config) in
      let cmd := command hash_str hash_type_str (potfile_path w) in
      match create_subprocess_exec w cmd with
      | inl exc => inl exc
      | inr process =>
        let stdout_str :=
          if decide (stdout process = "") then ""
          else decode_ignore w (stdout process) in
        let stderr_str :=
          if decide (stderr process = "") then ""
          else decode_ignore w (stderr process) in
        if decide (returncode process ≠ 0) then
          let error_output :=
            or_else stderr_str (or_else stdout_str "No error output") in
          inl (RuntimeError
                 ("Hashcat failed with exit code "
                  +:+ pretty (returncode process) +:+ ": "
                  +:+ py_prefix text 500 error_output))
        else
          match
            match potfile w with
            | None => inr ""
            | Some (inl exc) => inl exc
            | Some (inr line) => inr (py_strip text line)
            end
          with
          | inl exc => inl exc
          | inr plaintext =>
              inr (HashIdIdentifier.create_result
                     [cracked_finding hash_str hash_type_str plaintext]
                     "success"
                     (Some {[ "plaintext" := PStr plaintext ]})
                     (Some ∅)
                     None)
          end
      end
    end
  end.

(** [Hashcat.execute]: any exception becomes a [failed] result. *)
Definition execute (text : PythonText) (w : World) (config : hashcat_config)
    : ActivityResult :=
  match crack text w config with
  | inr result => result
  | inl exc =>
      HashIdIdentifier.create_result [] "failed" None
        (Some {[ "module" := PStr "hashcat";
                 "hash_input" := PStr (hc_hash config) ]})
        (Some (exc_str exc))
  end.

End Hashcat.

(** ** Capa module ([modules/reverse/capa.py]) *)

Module Capa.

(** What [exists()] and [is_file()] say of a path. *)
Inductive FileKind := Missing | Directory | RegularFile.

(** What [execute] meets outside itself. *)
Record World := {
  (** the inherited [validate_workspace(workspace)] *)
  validate_workspace : exception + unit;
  (** of [workspace / target_file]: what is there, and its [str] *)
  target_kind : string → FileKind;
  target_path : string → string;
  (** [asyncio.create_subprocess_exec] on the command, then
      [communicate()] *)
  create_subprocess_exec : list string → exception + Process;
  (** [bytes.decode()] *)
  decode : string → exception + string;
  (** [json.loads] *)
  loads : string → exception + json
}.

Definition critical_patterns : list string :=
  ["malware"; "anti-analysis"; "persistence"; "defense-evasion";
   "collection"; "exfiltration"; "command-and-control"].

Definition high_patterns : list string :=
  ["communication"; "executable"; "host-interaction"].

(** [_get_capability_severity]: each [for] loop returns at the first pattern
    found in the lowered namespace. *)
Definition _get_capability_severity (text : PythonText) (namespace : string)
    : string :=
  let namespace_lower := py_lower text namespace in
  if existsb (λ pattern, contains pattern namespace_lower) critical_patterns
  then "high"
  else if existsb (λ pattern, contains pattern namespace_lower) high_patterns
  then "medium"
  else "low".

(** [_get_capability_recommendation] *)
Definition _get_capability_recommendation (text : PythonText)
    (namespace rule_name : string) : string :=
  let base_rec :=
    "Capability '" +:+ rule_name +:+ "' was detected in the analyzed file. " in
  let base_rec :=
    if contains "anti-analysis" (py_lower text namespace) then
      base_rec +:+ "This suggests the binary may contain anti-debugging or anti-VM techniques. "
    else if contains "persistence" (py_lower text namespace) then
      base_rec +:+ "This suggests the binary may establish persistence mechanisms. "
    else if contains "communication" (py_lower text namespace) then
      base_rec +:+ "This suggests the binary may perform network communication. "
    else base_rec in
  base_rec +:+ "Review the binary's behavior and purpose to determine if this is expected functionality.".

(** The body of the loop over [rules.items()]: the finding of one rule, or
    the exception met on the way.  A namespace that is not a string has no
    [lower()]. *)
Definition finding_of_rule (text : PythonText) (rule_name : string)
    (rule_data : json) : exception + Finding :=
  match json_get rule_data "meta" (JDict []) with
  | inl exc => inl exc
  | inr meta =>
    match json_get meta "namespace" (JStr "unknown") with
    | inl exc => inl exc
    | inr (JStr namespace) =>
        inr (HashIdIdentifier.create_finding
               rule_name
               (_get_capability_recommendation text namespace rule_name)
               (_get_capability_severity text namespace)
               "capability"
               ∅)
    | inr other => inl (no_attribute other "lower")
    end
  end.

(** The loop over [rules.items()]: an exception ends it, and the findings
    made before are what [_parse_capa_output] returns. *)
Fixpoint findings_of_rules (text : PythonText) (rules : list (string * json))
    : list Finding :=
  match rules with
  | [] => []
  | (rule_name, rule_data) :: rest =>
      match finding_of_rule text rule_name rule_data with
      | inl _ => []
      | inr finding => finding :: findings_of_rules text rest
      end
  end.

(** [_parse_capa_output]; [target_file] is not used. *)
Definition _parse_capa_output (text : PythonText) (w : World)
    (output : string) : list Finding :=
  if decide (py_strip text output = "") then []
  else
    match loads w output with
    | inl _ => []
    | inr results =>
      match json_get results "rules" (JDict []) with
      | inl _ => []
      | inr rules =>
        match json_items rules with
        | inl _ => []
        | inr entries => findings_of_rules text entries
        end
      end
    end.

Definition validate_config (config : gmap string pyval) : exception + bool :=
  match config !! "target_file" with
  | Some _ => inr true
  | None =>
      inl (Raised (ValueError "target_file is required in configuration"))
  end.

(** [create_result(findings=[], status="failed", error=error_msg)] *)
Definition failed (error_msg : string) : ActivityResult :=
  HashIdIdentifier.create_result [] "failed" None None (Some error_msg).

(** The [try] block of [execute]: a result, or the exception that leaves
    it. *)
Definition analyse (text : PythonText) (w : World)
    (config : gmap string pyval) : exception + ActivityResult :=
  match validate_config config with
  | inl exc => inl exc
  | inr _ =>
    match validate_workspace w with
    | inl exc => inl exc
    | inr _ =>
      match dict_get config "target_file" with
      | PStr target_file =>
        match target_kind w target_file with
        | Missing =>
            inr (failed ("Target file not found: " +:+ target_file))
        | Directory =>
            inr (failed ("Target path is not a file: " +:+ target_file))
        | RegularFile =>
          let cmd := ["capa"; target_path w target_file; "--json"] in
          match create_subprocess_exec w cmd with
          | inl exc => inl exc
          | inr process =>
            if decide (returncode process ≠ 0) then
              match
                if decide (stderr process = "") then inr "Unknown error"
                else decode w (stderr process)
              with
              | inl exc => inl exc
              | inr error_msg =>
                  inr (failed ("capa execution failed: " +:+ error_msg))
              end
            else
              match decode w (stdout process) with
              | inl exc => inl exc
              | inr decoded =>
                let output := py_strip text decoded in
                let found := _parse_capa_output text w output in
                let summary : gmap string pyval :=
                  {[ "target_file" := PStr target_file;
                     "capabilities_found" := PInt (Z.of_nat (length found));
                     "analysis_completed" := PBool true ]} in
                inr (HashIdIdentifier.create_result found "success"
                       (Some summary) None None)
              end
          end
        end
      | other =>
          inl (Raised
                 (TypeError
                    ("unsupported operand type(s) for /: 'PosixPath' and '"
                     +:+ type_name other +:+ "'")))
      end
    end
  end.

(** [Capa.execute] *)
Definition execute (text : PythonText) (w : World)
    (config : gmap string pyval) : ActivityResult :=
  match analyse text w config with
  | inr result => result
  | inl (FileNotFoundError _) => failed "capa binary not found"
  | inl exc => failed (exc_str exc)
  end.

End Capa.

(** ** The activities of the workflows
    ([workflows/hash_cracking/activities.py],
    [workflows/binary_analysis/activities.py]) *)

Module Worker.

(** The worker on which the activities run.  Inside an activity
    [activity.info()] returns, and [result.dict()] is the result as the
    activity contract has it. *)
Record Host := {
  (** [from modules.cracking import Hashcat] and
      [from modules.reverse import Capa], by the name of the class *)
  import_module : string → exception + unit;
  (** [Path(workspace_path).exists()] *)
  workspace_exists : string → bool;
  (** the constructor calls [Hashcat()] and [Capa()] *)
  construct : string → exception + unit;
  hashcat_world : string → Hashcat.World;
  capa_world : string → Capa.World;
  (** the seconds of wall-clock time an attempt of an activity takes *)
  seconds : call → Z
}.

Definition workspace_not_found (workspace_path : string) : exception :=
  FileNotFoundError ("Workspace not found: " +:+ workspace_path).

(** [run_hashcat]: the [except] clause logs and raises again. *)
Definition run_hashcat (text : PythonText) (host : Host)
    (workspace_path : string) (config : hashcat_config)
    : exception + ActivityResult :=
  match import_module host "Hashcat" with
  | inl exc => inl exc
  | inr _ =>
    if workspace_exists host workspace_path then
      match construct host "Hashcat" with
      | inl exc => inl exc
      | inr _ =>
          inr (Hashcat.execute text (hashcat_world host workspace_path) config)
      end
    else inl (workspace_not_found workspace_path)
  end.

(** [run_capa] *)
Definition run_capa (text : PythonText) (host : Host)
    (workspace_path : string) (config : gmap string pyval)
    : exception + ActivityResult :=
  match import_module host "Capa" with
  | inl exc => inl exc
  | inr _ =>
    if workspace_exists host workspace_path then
      match construct host "Capa" with
      | inl exc => inl exc
      | inr _ =>
          inr (Capa.execute text (capa_world host workspace_path) config)
      end
    else inl (workspace_not_found workspace_path)
  end.

(** [start_to_close_timeout] at the call sites of [run_hashcat]
    ([timedelta(minutes=30)]) and of [run_capa] ([timedelta(minutes=5)]), in
    seconds.  Both call sites set [maximum_attempts=1]. *)
Definition hashcat_timeout : Z := 30 * 60.

Definition capa_timeout : Z := 5 * 60.

(** Modelled from the spec: an invocation that exceeds its timeout counts as
    a failed attempt against the retry policy.  With a single attempt, the
    workflow sees the failure of that attempt: the timeout, or the exception
    the activity raised. *)
Definition single_attempt {A : Type} (failure : exception → exn)
    (timeout elapsed : Z) (outcome : exception + A) : exn + A :=
  if decide (timeout < elapsed) then
    inl (failure (TimeoutError "activity StartToClose timeout"))
  else
    match outcome with
    | inl exc => inl (failure exc)
    | inr result => inr result
    end.

End Worker.

(** The two analysis activities above on a worker, the other activities as
    [rest] has them.  [failure] is the exception by which the workflow learns
    that an attempt failed. *)
Definition implemented (text : PythonText) (host : Worker.Host)
    (failure : exception → exn) (rest : Activities) : Activities :=
  λ c, match c return exn + returns c with
       | run_hashcat workspace_path config =>
           Worker.single_attempt failure Worker.hashcat_timeout
             (Worker.seconds host (run_hashcat workspace_path config))
             (Worker.run_hashcat text host workspace_path config)
       | run_capa workspace_path config =>
           Worker.single_attempt failure Worker.capa_timeout
             (Worker.seconds host (run_capa workspace_path config))
             (Worker.run_capa text host workspace_path config)
       | run_hashid a b => rest (run_hashid a b)
       | get_target a b c' => rest (get_target a b c')
       | generate_sarif_report_activity a b c' =>
           rest (generate_sarif_report_activity a b c')
       | generate_sarif_report_binary_analysis a b c' =>
           rest (generate_sarif_report_binary_analysis a b c')
       | scan_with_llm a b => rest (scan_with_llm a b)
       | llm_generate_sarif a b => rest (llm_generate_sarif a b)
       | upload_results a b c' => rest (upload_results a b c')
       | cleanup_cache a b => rest (cleanup_cache a b)
       end.

(** What the loop of [Capa._parse_capa_output] reads as the namespace of a
    rule: ["meta"] defaults to the empty dictionary and ["namespace"] to
    "unknown"; [None] when the reading raises, that is when the rule or its
    ["meta"] is not a dictionary, or the namespace is not a string. *)
Definition namespace_of (rule_data : json) : option string :=
  match rule_data with
  | JDict d =>
      match assoc "meta" d with
      | None => Some "unknown"
      | Some (JDict meta) =>
          match assoc "namespace" meta with
          | None => Some "unknown"
          | Some (JStr namespace) => Some namespace
          | Some _ => None
          end
      | Some _ => None
      end
  | _ => None
  end.

(** The finding the loop makes of a rule with the given namespace. *)
Definition is_capability_of (text : PythonText) (rule : string * json)
    (finding : Finding) : Prop :=
  ∃ namespace,
    namespace_of rule.2 = Some namespace
    ∧ title finding = rule.1
    ∧ description finding
      = Capa._get_capability_recommendation text namespace rule.1
    ∧ severity finding = Capa._get_capability_severity text namespace
    ∧ category finding = "capability".

(** ** Helpers for the statements on the modules *)

(** What the pot file gives as plaintext: nothing when it cannot be read. *)
Definition plaintext_of (text : PythonText) (w : Hashcat.World) : option string :=
  match Hashcat.potfile w with
  | None => Some ""
  | Some (inl _) => None
  | Some (inr line) => Some (py_strip text line)
  end.

(** ** A concrete interpreter and worker *)

Definition is_space (c : Ascii.ascii) : bool :=
  let n := Ascii.nat_of_ascii c in
  ((9 <=? n) && (n <=? 13) || (28 <=? n) && (n <=? 32))%nat.

Fixpoint lstrip (s : string) : string :=
  match s with
  | String c rest => if is_space c then lstrip rest else s
  | EmptyString => s
  end.

Definition lower_char (c : Ascii.ascii) : Ascii.ascii :=
  let n := Ascii.nat_of_ascii c in
  if ((65 <=? n) && (n <=? 90))%nat then Ascii.ascii_of_nat (n + 32) else c.

Fixpoint lower (s : string) : string :=
  match s with
  | String c rest => String (lower_char c) (lower rest)
  | EmptyString => EmptyString
  end.

(** Python's operations on texts of ASCII letters, digits, punctuation other
    than quotes and backslashes, and white space. *)
Definition ascii_text : PythonText :=
  {| py_strip := λ s, String.rev (lstrip (String.rev (lstrip s)));
     py_lower := lower;
     py_repr := λ s, "'" +:+ s +:+ "'";
     py_prefix := λ n s, String.substring 0 n s |}.

(** A run of hashcat that exits with the given code and leaves the given
    pot file. *)
Definition hashcat_exits (code : Z) (pot : option (exception + string))
    : Hashcat.World :=
  {| Hashcat.validate_workspace := inr tt;
     Hashcat.potfile_path := "/cache/run-1/jack.pot";
     Hashcat.create_subprocess_exec := λ _,
       inr {| returncode := code; stdout := ""; stderr := "" |};
     Hashcat.decode_ignore := id;
     Hashcat.potfile := pot |}.

Definition md5_config : hashcat_config :=
  {| hc_hash := md5_hash; hash_type := PInt 0 |}.

Definition newline : string := String (Ascii.ascii_of_nat 10) EmptyString.

(** Rules of a document of capa; the last one has a list where its
    description should be. *)
Definition rc4_rule : string * json :=
  ("encrypt data using RC4",
   JDict [("meta",
           JDict [("namespace", JStr "data-manipulation/encryption/rc4")])]).

Definition debugger_rule : string * json :=
  ("check for debugger",
   JDict [("meta", JDict [("namespace", JStr "Anti-Analysis/anti-debugging")]);
          ("matches", JDict [])]).

Definition socket_rule : string * json :=
  ("create TCP socket",
   JDict [("meta", JDict [("namespace", JStr "communication/socket/tcp")])]).

Definition broken_rule : string * json := ("broken", JList []).

Definition capa_document (rules : list (string * json)) : json :=
  JDict [("meta", JDict [("version", JStr "7.0.1")]); ("rules", JDict rules)].

(** A run of capa on the regular file [sample.bin] that exits with the
    given code and whose output is the given document. *)
Definition capa_exits (code : Z) (document : exception + json) : Capa.World :=
  {| Capa.validate_workspace := inr tt;
     Capa.target_kind := λ target_file,
       if decide (target_file = "sample.bin") then Capa.RegularFile
       else if decide (target_file = "lib") then Capa.Directory
       else Capa.Missing;
     Capa.target_path := λ target_file, "/cache/run-1/" +:+ target_file;
     Capa.create_subprocess_exec := λ _,
       inr {| returncode := code; stdout := "{...}" +:+ newline;
              stderr := "" |};
     Capa.decode := inr;
     Capa.loads := λ _, document |}.

(** A worker on which the modules load, only the workspace [/cache/run-1]
    exists, and every attempt takes the given seconds. *)
Definition worker (hashcat_world : Hashcat.World) (capa_world : Capa.World)
    (elapsed : Z) : Worker.Host :=
  {| Worker.import_module := λ _, inr tt;
     Worker.workspace_exists := λ workspace_path,
       bool_decide (workspace_path = "/cache/run-1");
     Worker.construct := λ _, inr tt;
     Worker.hashcat_world := λ _, hashcat_world;
     Worker.capa_world := λ _, capa_world;
     Worker.seconds := λ _, elapsed |}.

(** The failure of an activity as the workflow sees it. *)
Definition activity_failed (exc : exception) : exn :=
  ActivityError (exc_str exc).

(** A result that claims one match and carries no finding. *)
Definition one_match_no_finding : ActivityResult :=
  {| ar_status := Some "success"; ar_findings := Some [];
     ar_summary := Some {[ "total_matches" := PInt 1 ]};
     ar_metadata := None; ar_error := None |}.

(** ** One outcome per invocation *)

(** No run invokes an activity twice with the same arguments: taking the
    outcome of an activity as a function of its name and arguments loses no
    run. *)
Lemma each_invocation_is_made_once (env : Activities) (info : WorkflowInfo)
    (p : Pipeline) :
  NoDup (calls (run_pipeline env info p).2).
Proof.
  destruct (run_pipeline env info p) as [out st] eqn:Hrun.
  destruct p; unfold_run Hrun; run_cases env Hrun; observe;
    repeat (apply NoDup_cons; split;
            [ intros Hin;
              repeat (apply elem_of_cons in Hin as [Hin|Hin];
                      [discriminate Hin |]);
              by apply elem_of_nil in Hin | ]);
    apply NoDup_nil_2.
Qed.

(** ** The branch on the number of identified hash types *)

Section HashCrackingBranches.

Import HashCrackingWorkflow.

Variables (env : Activities) (info : WorkflowInfo).
Variables (target target_hash path : string).
Variable hashid_results : ActivityResult.

(** No hint is given; the download and the identification have returned. *)
Hypothesis fetched :
  env (get_target target (info_run_id info) "isolated") = inr path.
Hypothesis identified_as :
  env (run_hashid path {| hash := Some target_hash |}) = inr hashid_results.

(** Zero matches ([total_matches == 0]): the cracking activity is never
    invoked.  If the report activity called on the synthetic finding returns,
    the run returns its record with status "aborted" and exactly one finding,
    titled "No Hash Type Identified", of severity "warning"; if it raises, the
    run raises the same exception and ends with status "error". *)
Theorem zero_matches_abort :
  py_eq_int (total_matches_of hashid_results) 0 = true →
  let '(out, st) := run env info target target_hash None in
  invocations is_run_hashcat st = 0%nat
  ∧ (∀ report,
       env (generate_sarif_report_activity
              (findings_only [no_match_finding target_hash]) ∅ path)
         = inr report →
       out = inr (results st)
       ∧ status (results st) = "aborted"
       ∧ findings (results st) = Some [no_match_finding target_hash]
       ∧ title (no_match_finding target_hash) = "No Hash Type Identified"
       ∧ severity (no_match_finding target_hash) = "warning")
  ∧ (∀ e,
       env (generate_sarif_report_activity
              (findings_only [no_match_finding target_hash]) ∅ path)
         = inl e →
       out = inl e ∧ status (results st) = "error").
Proof.
  intros Hzero.
  destruct (run env info target target_hash None) as [out st] eqn:Hrun.
  enter_identified fetched identified_as Hrun. rewrite Hzero in Hrun.
  run_cases env Hrun; observe; split_and!; try reflexivity;
    intros ? Hreport; simplify_eq; repeat split.
Qed.

(** Two or more matches: the cracking activity is never invoked.  If the
    report activity called on the identification result returns, the run
    returns its record with status "needs_selection", all the findings of the
    identification, its summary, and the guidance message; if it raises, the
    run raises the same exception and ends with status "error". *)
Theorem several_matches_need_selection (n : Z) :
  total_matches_of hashid_results = PInt n →
  (2 ≤ n)%Z →
  let '(out, st) := run env info target target_hash None in
  invocations is_run_hashcat st = 0%nat
  ∧ (∀ report,
       env (generate_sarif_report_activity hashid_results ∅ path)
         = inr report →
       out = inr (results st)
       ∧ status (results st) = "needs_selection"
       ∧ findings (results st) = Some (get_findings hashid_results)
       ∧ summary (results st) = Some (get_summary hashid_results)
       ∧ message (results st) =
           Some "Multiple hash types identified. Please re-run with a specific hash_type parameter.")
  ∧ (∀ e,
       env (generate_sarif_report_activity hashid_results ∅ path) = inl e →
       out = inl e ∧ status (results st) = "error").
Proof.
  intros Htotal Hn.
  destruct (run env info target target_hash None) as [out st] eqn:Hrun.
  enter_identified fetched identified_as Hrun.
  rewrite Htotal in Hrun. cbv [py_eq_int py_gt_int] in Hrun.
  destruct (Z.eqb_spec n 0) as [|_]; [lia |].
  destruct (Z.ltb_spec 1 n) as [_|]; [| lia].
  run_cases env Hrun; observe; split_and!; try reflexivity;
    intros ? Hreport; simplify_eq; repeat split.
Qed.

Variable first : Finding.

(** Exactly one match. *)
Hypothesis one_match : total_matches_of hashid_results = PInt 1.
Hypothesis one_finding : get_findings hashid_results = [first].

(** C2.  The identification returns exactly one match whose metadata carries
    a hashcat mode, mode 0 included: the cracking activity is invoked exactly
    once, and the [hash_type] of its configuration is that mode. *)
Theorem single_match_cracks (mode : pyval) :
  dict_get (metadata first) "hashcat_mode" = mode →
  mode ≠ PNone →
  List.filter is_run_hashcat
    (calls (run env info target target_hash None).2)
  = [run_hashcat path {| hc_hash := target_hash; hash_type := mode |}].
Proof.
  intros Hmode Hsome.
  destruct (run env info target target_hash None) as [out st] eqn:Hrun.
  enter_identified fetched identified_as Hrun.
  rewrite one_match, one_finding in Hrun.
  change (py_eq_int (PInt 1) 0) with false in Hrun.
  change (py_gt_int (PInt 1) 1) with (@inr exn bool false) in Hrun.
  change (list_index [first] 0) with (@inr exn Finding first) in Hrun.
  cbv beta iota zeta in Hrun. rewrite Hmode in Hrun.
  destruct mode; [done | ..]; run_cases env Hrun; observe; reflexivity.
Qed.

(** One match without a hashcat mode: the cracking activity is never invoked.
    If the report activity called on the synthetic finding returns, the run
    returns its record with status "aborted" and exactly one finding, titled
    "No Hashcat Mode Available", which is not the title of the zero-match
    finding; if it raises, the run raises the same exception and ends with
    status "error". *)
Theorem single_match_without_mode_aborts :
  dict_get (metadata first) "hashcat_mode" = PNone →
  let '(out, st) := run env info target target_hash None in
  invocations is_run_hashcat st = 0%nat
  ∧ (∀ report,
       env (generate_sarif_report_activity
              (findings_only [no_mode_finding first]) ∅ path)
         = inr report →
       out = inr (results st)
       ∧ status (results st) = "aborted"
       ∧ findings (results st) = Some [no_mode_finding first]
       ∧ title (no_mode_finding first) = "No Hashcat Mode Available"
       ∧ title (no_mode_finding first)
         ≠ title (no_match_finding target_hash))
  ∧ (∀ e,
       env (generate_sarif_report_activity
              (findings_only [no_mode_finding first]) ∅ path)
         = inl e →
       out = inl e ∧ status (results st) = "error").
Proof.
  intros Hmode.
  destruct (run env info target target_hash None) as [out st] eqn:Hrun.
  enter_identified fetched identified_as Hrun.
  rewrite one_match, one_finding in Hrun.
  change (py_eq_int (PInt 1) 0) with false in Hrun.
  change (py_gt_int (PInt 1) 1) with (@inr exn bool false) in Hrun.
  change (list_index [first] 0) with (@inr exn Finding first) in Hrun.
  cbv beta iota zeta in Hrun. rewrite Hmode in Hrun.
  run_cases env Hrun; observe; split_and!; try reflexivity;
    intros ? Hreport; simplify_eq; repeat split; done.
Qed.

End HashCrackingBranches.

(** C5.  With a hint, whatever the hash and whatever the hint (0 included),
    the identification activity is never invoked, every invocation of the
    cracking activity carries the hint as its [hash_type], and the cracking
    activity is what follows the download as soon as the download returns. *)
Theorem hint_skips_identification (env : Activities) (info : WorkflowInfo)
    (target target_hash : string) (hint : Z) :
  let st := (HashCrackingWorkflow.run env info target target_hash
               (Some hint)).2 in
  invocations is_run_hashid st = 0%nat
  ∧ (∀ workspace config,
       run_hashcat workspace config ∈ calls st →
       config = {| hc_hash := target_hash; hash_type := PInt hint |})
  ∧ (∀ path,
       env (get_target target (info_run_id info) "isolated") = inr path →
       ∃ rest,
         calls st =
           get_target target (info_run_id info) "isolated"
           :: run_hashcat path
                {| hc_hash := target_hash; hash_type := PInt hint |}
           :: rest).
Proof.
  destruct (HashCrackingWorkflow.run env info target target_hash (Some hint))
    as [out st] eqn:Hrun.
  unfold_run Hrun.
  run_cases env Hrun; observe; split_and!; try reflexivity.
  all: first [ intros ws cfg Hin;
               repeat (apply elem_of_cons in Hin as [Hin|Hin];
                       [by simplify_eq |]);
               by apply elem_of_nil in Hin
             | intros p Hp; simplify_eq; eexists; reflexivity ].
Qed.

(** *** The branches on concrete runs *)

(** The zero-match branch when the hashid library finds no candidate for
    [md5_hash] and every activity returns. *)
Lemma zero_matches_abort_witness :
  let env := world (all_fine []) in
  let '(out, st) :=
    HashCrackingWorkflow.run env info0 "target-1" md5_hash None in
  py_eq_int (HashCrackingWorkflow.total_matches_of (identified [])) 0 = true
  ∧ invocations is_run_hashcat st = 0%nat
  ∧ out = inr (results st)
  ∧ status (results st) = "aborted"
  ∧ findings (results st)
    = Some [HashCrackingWorkflow.no_match_finding md5_hash].
Proof.
  pose proof (zero_matches_abort (world (all_fine [])) info0 "target-1"
                md5_hash "/cache/run-1" (identified [])
                eq_refl eq_refl eq_refl) as H.
  cbv zeta. revert H.
  destruct (HashCrackingWorkflow.run _ _ _ _ _) as [out st].
  intros (Hnone & H & _).
  destruct (H _ eq_refl) as (Hout & Hstatus & Hfindings & _).
  split; [reflexivity | done].
Defined.

(** C1.  At the failing input: the identification returns zero matches and
    the report activity raises.  The run raises, its status is "error" and
    not "aborted", no finding is recorded and no cleanup is attempted; in the
    same world with a report activity that returns, the run ends as the claim
    says. *)
Lemma zero_matches_report_failure :
  let env := world (with_report (inl report_unavailable) (all_fine [])) in
  let '(out, st) :=
    HashCrackingWorkflow.run env info0 "target-1" md5_hash None in
  let '(out', st') :=
    HashCrackingWorkflow.run (world (all_fine [])) info0 "target-1"
      md5_hash None in
  env (run_hashid "/cache/run-1" {| hash := Some md5_hash |})
    = inr (identified [])
  ∧ HashCrackingWorkflow.total_matches_of (identified []) = PInt 0
  ∧ out = inl report_unavailable
  ∧ status (results st) = "error"
  ∧ status (results st) ≠ "aborted"
  ∧ findings (results st) = None
  ∧ invocations is_cleanup_cache st = 0%nat
  ∧ status (results st') = "aborted"
  ∧ findings (results st')
    = Some [HashCrackingWorkflow.no_match_finding md5_hash].
Proof. vm_compute. repeat split; discriminate. Qed.

(** The several-matches branch for the candidates MD5 and MD4. *)
Lemma several_matches_need_selection_witness :
  let env := world (all_fine [md5_info; md4_info]) in
  let '(out, st) :=
    HashCrackingWorkflow.run env info0 "target-1" md5_hash None in
  HashCrackingWorkflow.total_matches_of (identified [md5_info; md4_info])
    = PInt 2
  ∧ invocations is_run_hashcat st = 0%nat
  ∧ status (results st) = "needs_selection"
  ∧ findings (results st)
    = Some (get_findings (identified [md5_info; md4_info]))
  ∧ length (get_findings (identified [md5_info; md4_info])) = 2%nat.
Proof.
  pose proof (several_matches_need_selection
                (world (all_fine [md5_info; md4_info])) info0 "target-1"
                md5_hash "/cache/run-1" (identified [md5_info; md4_info])
                eq_refl eq_refl 2 eq_refl ltac:(lia)) as H.
  cbv zeta. revert H.
  destruct (HashCrackingWorkflow.run _ _ _ _ _) as [out st].
  intros (Hnone & H & _).
  destruct (H _ eq_refl) as (Hout & Hstatus & Hfindings & _).
  split; [reflexivity | done].
Defined.

(** C3.  At the failing input: the identification returns two matches and
    the report activity raises.  The run raises, its status is "error" and
    not "needs_selection", neither the candidates nor the message are
    recorded; in the same world with a report activity that returns, the run
    ends as the claim says. *)
Lemma several_matches_report_failure :
  let env :=
    world (with_report (inl report_unavailable)
             (all_fine [md5_info; md4_info])) in
  let '(out, st) :=
    HashCrackingWorkflow.run env info0 "target-1" md5_hash None in
  let '(out', st') :=
    HashCrackingWorkflow.run (world (all_fine [md5_info; md4_info])) info0
      "target-1" md5_hash None in
  env (run_hashid "/cache/run-1" {| hash := Some md5_hash |})
    = inr (identified [md5_info; md4_info])
  ∧ HashCrackingWorkflow.total_matches_of (identified [md5_info; md4_info])
    = PInt 2
  ∧ out = inl report_unavailable
  ∧ status (results st) = "error"
  ∧ status (results st) ≠ "needs_selection"
  ∧ findings (results st) = None
  ∧ message (results st) = None
  ∧ status (results st') = "needs_selection"
  ∧ findings (results st')
    = Some (get_findings (identified [md5_info; md4_info])).
Proof. vm_compute. repeat split; discriminate. Qed.

(** C2 on the single candidate MD5, whose hashcat mode is 0. *)
Lemma single_match_cracks_witness :
  let env := world (all_fine [md5_info]) in
  HashCrackingWorkflow.total_matches_of (identified [md5_info]) = PInt 1
  ∧ get_findings (identified [md5_info])
    = [HashIdIdentifier.finding_of md5_hash 0 md5_info]
  ∧ dict_get (metadata (HashIdIdentifier.finding_of md5_hash 0 md5_info))
      "hashcat_mode" = PInt 0
  ∧ List.filter is_run_hashcat
      (calls (HashCrackingWorkflow.run env info0 "target-1" md5_hash None).2)
    = [run_hashcat "/cache/run-1"
         {| hc_hash := md5_hash; hash_type := PInt 0 |}].
Proof.
  split_and!; [reflexivity .. |].
  apply (single_match_cracks (world (all_fine [md5_info])) info0 "target-1"
           md5_hash "/cache/run-1" (identified [md5_info])
           eq_refl eq_refl
           (HashIdIdentifier.finding_of md5_hash 0 md5_info)
           eq_refl eq_refl (PInt 0) eq_refl).
  discriminate.
Defined.

(** The single-match branch for the candidate MD2, which has no hashcat
    mode. *)
Lemma single_match_without_mode_aborts_witness :
  let env := world (all_fine [md2_info]) in
  let first := HashIdIdentifier.finding_of md5_hash 0 md2_info in
  let '(out, st) :=
    HashCrackingWorkflow.run env info0 "target-1" md5_hash None in
  dict_get (metadata first) "hashcat_mode" = PNone
  ∧ invocations is_run_hashcat st = 0%nat
  ∧ status (results st) = "aborted"
  ∧ findings (results st) = Some [HashCrackingWorkflow.no_mode_finding first].
Proof.
  pose proof (single_match_without_mode_aborts
                (world (all_fine [md2_info])) info0 "target-1"
                md5_hash "/cache/run-1" (identified [md2_info])
                eq_refl eq_refl
                (HashIdIdentifier.finding_of md5_hash 0 md2_info)
                eq_refl eq_refl eq_refl) as H.
  cbv zeta. revert H.
  destruct (HashCrackingWorkflow.run _ _ _ _ _) as [out st].
  intros (Hnone & H & _).
  destruct (H _ eq_refl) as (Hout & Hstatus & Hfindings & _).
  split; [reflexivity | done].
Defined.

(** C4.  At the failing input: the identification returns one match without
    a hashcat mode and the report activity raises.  The run raises, its
    status is "error" and not "aborted", and no finding is recorded; in the
    same world with a report activity that returns, the run ends as the claim
    says. *)
Lemma single_match_without_mode_report_failure :
  let env :=
    world (with_report (inl report_unavailable) (all_fine [md2_info])) in
  let '(out, st) :=
    HashCrackingWorkflow.run env info0 "target-1" md5_hash None in
  let '(out', st') :=
    HashCrackingWorkflow.run (world (all_fine [md2_info])) info0 "target-1"
      md5_hash None in
  env (run_hashid "/cache/run-1" {| hash := Some md5_hash |})
    = inr (identified [md2_info])
  ∧ HashCrackingWorkflow.total_matches_of (identified [md2_info]) = PInt 1
  ∧ length (get_findings (identified [md2_info])) = 1%nat
  ∧ out = inl report_unavailable
  ∧ status (results st) = "error"
  ∧ status (results st) ≠ "aborted"
  ∧ findings (results st) = None
  ∧ status (results st') = "aborted"
  ∧ (title <$> (findings (results st') ≫= head))
    = Some "No Hashcat Mode Available".
Proof. vm_compute. repeat split; discriminate. Qed.

(** C5 with the hint 0, in a world where the identification would have
    found two candidates. *)
Lemma hint_skips_identification_witness :
  let env := world (all_fine [md5_info; md4_info]) in
  let st := (HashCrackingWorkflow.run env info0 "target-1" md5_hash
               (Some 0)).2 in
  env (get_target "target-1" (info_run_id info0) "isolated")
    = inr "/cache/run-1"
  ∧ invocations is_run_hashid st = 0%nat
  ∧ ∃ rest,
      calls st =
        get_target "target-1" (info_run_id info0) "isolated"
        :: run_hashcat "/cache/run-1"
             {| hc_hash := md5_hash; hash_type := PInt 0 |}
        :: rest.
Proof.
  pose proof (hint_skips_identification
                (world (all_fine [md5_info; md4_info])) info0 "target-1"
                md5_hash 0) as (Hnone & _ & Hnext).
  split; [reflexivity |]. split; [exact Hnone |].
  exact (Hnext "/cache/run-1" eq_refl).
Defined.

(** ** The identification module and the branch *)

Section Identification.

Import HashIdIdentifier HashCrackingWorkflow.

Variable identifyHash : string → exn + list HashInfo.
Variable validate_workspace : exn + unit.
Variable config : hashid_config.

Lemma total_matches_of_success (found : list Finding)
    (names : list string) (n : nat) (md : option (gmap string pyval)) :
  total_matches_of
    (create_result found "success"
       (Some {[ "possible_hash_types" := PList names;
                "total_matches" := PInt (Z.of_nat n) ]}) md None)
  = PInt (Z.of_nat n).
Proof.
  unfold total_matches_of, dict_get_default, get_summary, create_result.
  cbn [ar_summary default from_option id].
  rewrite lookup_insert_ne by done.
  by rewrite lookup_singleton_eq.
Qed.

Lemma total_matches_of_failed (msg : option string) :
  total_matches_of (create_result [] "failed" None None msg) = PInt 0.
Proof. reflexivity. Qed.

(** C9.  A successful result of [execute] has one finding per candidate of
    the hashid library, in order, and [total_matches] is the length of its
    findings; and for every result of [execute], when the workflow reaches
    its single-match branch ([total_matches] neither [== 0] nor [> 1]),
    [findings[0]] is in bounds. *)
Theorem identification_counts_findings :
  let r := execute identifyHash validate_workspace config in
  (ar_status r = Some "success" →
     ∃ hash_str candidates,
       hash config = Some hash_str
       ∧ identifyHash hash_str = inr candidates
       ∧ ar_findings r = Some (imap (finding_of hash_str) candidates)
       ∧ total_matches_of r
         = PInt (Z.of_nat (length (get_findings r))))
  ∧ (py_eq_int (total_matches_of r) 0 = false →
     py_gt_int (total_matches_of r) 1 = inr false →
     ∃ first, list_index (get_findings r) 0 = inr first).
Proof.
  unfold execute, identify.
  destruct (validate_config config) as [e|_];
    [by split; [intros [=] | rewrite total_matches_of_failed] |].
  destruct validate_workspace as [e|_];
    [by split; [intros [=] | rewrite total_matches_of_failed] |].
  destruct (hash config) as [hash_str|];
    [| by split; [intros [=] | rewrite total_matches_of_failed] ].
  destruct (identifyHash hash_str) as [e|candidates] eqn:Hlib;
    [by split; [intros [=] | rewrite total_matches_of_failed] |].
  cbv zeta. rewrite total_matches_of_success.
  unfold get_findings, create_result;
    cbn [ar_findings ar_status default from_option id].
  rewrite length_imap. split.
  - intros _. by exists hash_str, candidates.
  - destruct candidates as [|c candidates]; [done |].
    intros _ _. by eexists.
Qed.

End Identification.

(** C9 on the result of the module for the single candidate MD5. *)
Lemma identification_counts_findings_witness :
  ar_status (identified [md5_info]) = Some "success"
  ∧ py_eq_int (HashCrackingWorkflow.total_matches_of (identified [md5_info])) 0
    = false
  ∧ py_gt_int (HashCrackingWorkflow.total_matches_of (identified [md5_info])) 1
    = inr false
  ∧ HashCrackingWorkflow.total_matches_of (identified [md5_info]) = PInt 1
  ∧ list_index (get_findings (identified [md5_info])) 0
    = inr (HashIdIdentifier.finding_of md5_hash 0 md5_info).
Proof.
  pose proof (identification_counts_findings (λ _, inr [md5_info]) (inr tt)
                {| hash := Some md5_hash |}) as [Hcount Hfirst].
  destruct (Hcount eq_refl) as (h & cs & _ & _ & _ & Htotal).
  destruct (Hfirst eq_refl eq_refl) as [first Hidx].
  split_and!; reflexivity.
Defined.

(** ** A failed identification is a zero-match identification *)

(** Whenever the identification activity returns a result, whatever its
    [status], the step [hash_identification] is recorded with status
    "success" and the [total_matches] read from the result.  When the result
    has no [total_matches] entry, such as a [failed] result of the module,
    that number is 0 and the run ends exactly as it does in a world where the
    identification returns a genuine zero-match result: with status
    "aborted" and the single finding "No Hash Type Identified" of severity
    "warning" when the report activity returns, and with status "error" and
    no finding when it raises. *)
Theorem failed_identification_aborts_like_zero_matches
    (env : Activities) (info : WorkflowInfo) (target target_hash path : string)
    (hashid_results : ActivityResult) :
  env (get_target target (info_run_id info) "isolated") = inr path →
  env (run_hashid path {| hash := Some target_hash |}) = inr hashid_results →
  let '(out, st) :=
    HashCrackingWorkflow.run env info target target_hash None in
  let report :=
    generate_sarif_report_activity
      (HashCrackingWorkflow.findings_only
         [HashCrackingWorkflow.no_match_finding target_hash]) ∅ path in
  steps (results st) !! 1%nat
    = Some {[ "step" := PStr "hash_identification";
              "status" := PStr "success";
              "total_matches" :=
                HashCrackingWorkflow.total_matches_of hashid_results ]}
  ∧ (get_summary hashid_results !! "total_matches" = None →
     HashCrackingWorkflow.total_matches_of hashid_results = PInt 0
     ∧ (∀ env' zero_match,
          same_but_hashid env env' →
          env' (run_hashid path {| hash := Some target_hash |})
            = inr zero_match →
          HashCrackingWorkflow.total_matches_of zero_match = PInt 0 →
          HashCrackingWorkflow.run env' info target target_hash None
          = (out, st))
     ∧ (∀ sarif_report,
          env report = inr sarif_report →
          out = inr (results st)
          ∧ status (results st) = "aborted"
          ∧ findings (results st)
            = Some [HashCrackingWorkflow.no_match_finding target_hash]
          ∧ title (HashCrackingWorkflow.no_match_finding target_hash)
            = "No Hash Type Identified"
          ∧ severity (HashCrackingWorkflow.no_match_finding target_hash)
            = "warning")
     ∧ (∀ e,
          env report = inl e →
          out = inl e
          ∧ status (results st) = "error"
          ∧ findings (results st) = None)).
Proof.
  intros Hfetch Hid.
  destruct (HashCrackingWorkflow.run env info target target_hash None)
    as [out st] eqn:Hrun.
  cbv zeta. split.
  - clear -Hfetch Hid Hrun. enter_identified Hfetch Hid Hrun.
    run_cases env Hrun; observe; reflexivity.
  - intros Hnone.
    assert (HashCrackingWorkflow.total_matches_of hashid_results = PInt 0)
      as Htotal.
    { unfold HashCrackingWorkflow.total_matches_of, dict_get_default.
      by rewrite Hnone. }
    split; [exact Htotal |].
    enter_identified Hfetch Hid Hrun.
    rewrite Htotal in Hrun.
    change (py_eq_int (PInt 0) 0) with true in Hrun.
    cbv beta iota zeta in Hrun.
    split.
    { intros env' zero_match Hagree Hid' Hzero.
      destruct (HashCrackingWorkflow.run env' info target target_hash None)
        as [out' st'] eqn:Hrun'.
      unfold_run Hrun'.
      rewrite !Hagree in Hrun' by reflexivity.
      rewrite Hfetch in Hrun'; cbv beta iota zeta in Hrun'.
      rewrite Hid' in Hrun'; cbv beta iota zeta in Hrun'.
      rewrite Hzero in Hrun'.
      change (py_eq_int (PInt 0) 0) with true in Hrun'.
      cbv beta iota zeta in Hrun'.
      rewrite !Hagree in Hrun' by reflexivity.
      congruence. }
    run_cases env Hrun; observe; split;
      intros ? Hreport; simplify_eq; repeat split.
Qed.

(** On the [failed] result the module returns when the hashid library
    raises, against the world where it finds no candidate. *)
Lemma failed_identification_aborts_like_zero_matches_witness :
  let env := world (with_run_hashid (inr identification_failed) (all_fine [])) in
  let '(out, st) :=
    HashCrackingWorkflow.run env info0 "target-1" md5_hash None in
  ar_status identification_failed = Some "failed"
  ∧ ar_findings identification_failed = Some []
  ∧ same_but_hashid env (world (all_fine []))
  ∧ HashCrackingWorkflow.run (world (all_fine [])) info0 "target-1"
      md5_hash None = (out, st)
  ∧ status (results st) = "aborted"
  ∧ findings (results st)
    = Some [HashCrackingWorkflow.no_match_finding md5_hash].
Proof.
  pose proof (failed_identification_aborts_like_zero_matches
                (world (with_run_hashid (inr identification_failed)
                          (all_fine [])))
                info0 "target-1" md5_hash "/cache/run-1"
                identification_failed eq_refl eq_refl) as H.
  cbv zeta in H |- *. revert H.
  destruct (HashCrackingWorkflow.run
              (world (with_run_hashid (inr identification_failed)
                        (all_fine [])))
              info0 "target-1" md5_hash None) as [out st].
  intros [_ H]. destruct (H eq_refl) as (_ & Hsame & Habort & _).
  assert (same_but_hashid
            (world (with_run_hashid (inr identification_failed)
                      (all_fine [])))
            (world (all_fine []))) as Hagree.
  { intros c Hc. destruct c; first [discriminate Hc | reflexivity]. }
  destruct (Habort _ eq_refl) as (_ & Hstatus & Hfindings & _).
  split_and!; [reflexivity .. | exact Hagree | | exact Hstatus
              | exact Hfindings].
  exact (Hsame (world (all_fine [])) (identified []) Hagree eq_refl eq_refl).
Defined.

(** C10.  At the failing input: the identification returns the module's
    [failed] result (no finding, and a summary that is absent or the empty
    mapping) and the report activity raises.  The step
    [hash_identification] is recorded with status "success" and zero
    matches, and the run ends exactly as the run of a genuine zero-match
    identification in that world: it raises, with status "error" and not
    "aborted", without a finding and without cleanup.  In the same world with
    a report activity that returns, the run ends as the claim says: status
    "aborted" with the single finding "No Hash Type Identified". *)
Lemma failed_identification_report_failure :
  let run_with (failed : ActivityResult) : Prop :=
    let unavailable := with_report (inl report_unavailable) in
    let env :=
      world (unavailable (with_run_hashid (inr failed) (all_fine []))) in
    let run := HashCrackingWorkflow.run env info0 "target-1" md5_hash None in
    let run' :=
      HashCrackingWorkflow.run
        (world (with_run_hashid (inr failed) (all_fine [])))
        info0 "target-1" md5_hash None in
    ar_status failed = Some "failed"
    ∧ ar_findings failed = Some []
    ∧ env (run_hashid "/cache/run-1" {| hash := Some md5_hash |}) = inr failed
    ∧ steps (results run.2) !! 1%nat
      = Some {[ "step" := PStr "hash_identification";
                "status" := PStr "success";
                "total_matches" := PInt 0 ]}
    ∧ HashCrackingWorkflow.run (world (unavailable (all_fine []))) info0
        "target-1" md5_hash None = run
    ∧ run.1 = inl report_unavailable
    ∧ status (results run.2) = "error"
    ∧ status (results run.2) ≠ "aborted"
    ∧ findings (results run.2) = None
    ∧ invocations is_cleanup_cache run.2 = 0%nat
    ∧ HashCrackingWorkflow.run (world (all_fine [])) info0
        "target-1" md5_hash None = run'
    ∧ run'.1 = inr (results run'.2)
    ∧ status (results run'.2) = "aborted"
    ∧ (title <$> default [] (findings (results run'.2)))
      = ["No Hash Type Identified"]
    ∧ (severity <$> default [] (findings (results run'.2))) = ["warning"] in
  run_with identification_failed
  ∧ run_with identification_failed_with_summary.
Proof.
  cbv zeta. split_and!; vm_compute; first [reflexivity | discriminate].
Qed.

(** ** Cleanup *)

(** C6, amended.  In the hash-cracking, binary-analysis and LLM-secret-
    detection pipelines, a run that returns its record has attempted the
    cleanup exactly once, as its last activity: on the path to "success" while
    the status is still "running" (the status is set afterwards), on the
    paths to "aborted" and "needs_selection" after the status has been set.
    A run that raises ends with status "error" and attempts no cleanup. *)
Theorem cleanup_once_iff_run_returns (env : Activities) (info : WorkflowInfo)
    (p : Pipeline) :
  let '(out, st) := run_pipeline env info p in
  match out with
  | inr record =>
      record = results st
      ∧ invocations is_cleanup_cache st = 1%nat
      ∧ ∃ workspace isolation at_cleanup,
          last (history st)
            = Some {| ev_call := cleanup_cache workspace isolation;
                      ev_status := at_cleanup |}
          ∧ (status record = "success" ∧ at_cleanup = "running"
             ∨ (status record = "aborted"
                ∨ status record = "needs_selection")
               ∧ at_cleanup = status record)
  | inl e =>
      invocations is_cleanup_cache st = 0%nat
      ∧ status (results st) = "error"
  end.
Proof.
  destruct (run_pipeline env info p) as [out st] eqn:Hrun.
  destruct p; unfold_run Hrun; run_cases env Hrun; observe;
    repeat split; eexists _, _, _; (split; [reflexivity |]); auto.
Qed.

(** C6, counterexample.  The download raises: the run ends with status
    "error" after a single activity, the download itself, and the cleanup is
    never attempted.  And in a run where everything returns, the cleanup is
    attempted while the status is still "running". *)
Lemma no_cleanup_when_fetch_fails :
  let unreachable :=
    world (with_get_target (inl (ActivityError "target not found"))
             (all_fine [md5_info])) in
  let '(out, st) :=
    run_pipeline unreachable info0 (HashCracking "target-1" md5_hash None) in
  let '(out', st') :=
    run_pipeline (world (all_fine [md5_info])) info0
      (BinaryAnalysis "target-1" "sample.bin") in
  out = inl (ActivityError "target not found")
  ∧ status (results st) = "error"
  ∧ calls st = [get_target "target-1" "run-1" "isolated"]
  ∧ invocations is_cleanup_cache st = 0%nat
  ∧ status (results st') = "success"
  ∧ last (history st')
    = Some {| ev_call := cleanup_cache "/cache/run-1" "isolated";
              ev_status := "running" |}.
Proof. vm_compute. repeat split. Qed.

(** ** Report and upload failures *)

(** Where the report and the upload are guarded.  Once the download and the
    cracking activity (hash cracking), or the download and the capability
    analysis (binary analysis), have returned, the run returns with status
    "success" whether the report and the upload return or raise: a report
    that raised leaves the empty report, an upload that raised leaves
    [results_url] set to [None].  In the LLM secret detection, once the
    download, the scan and the report have returned, the run returns with
    status "success" whether the upload returns or raises. *)
Theorem report_and_upload_are_best_effort (env : Activities) (info : WorkflowInfo) :
  (∀ target target_hash hint workspace config hashcat_results,
     let '(out, st) :=
       HashCrackingWorkflow.run env info target target_hash hint in
     run_hashcat workspace config ∈ calls st →
     env (run_hashcat workspace config) = inr hashcat_results →
     out = inr (results st)
     ∧ status (results st) = "success"
     ∧ sarif (results st)
       = Some match env (generate_sarif_report_activity
                           hashcat_results ∅ workspace) with
              | inr report => report
              | inl _ => ∅
              end
     ∧ results_url (results st)
       = Some match env (upload_results (info_workflow_id info)
                           hashcat_results "json") with
              | inr url => Some url
              | inl _ => None
              end
     ∧ findings (results st) = Some (get_findings hashcat_results))
  ∧ (∀ target target_file workspace capa_results,
       let '(out, st) :=
         BinaryAnalysisWorkflow.run env info target target_file in
       env (get_target target (info_run_id info) "isolated")
         = inr workspace →
       env (run_capa workspace {[ "target_file" := PStr target_file ]})
         = inr capa_results →
       out = inr (results st)
       ∧ status (results st) = "success"
       ∧ sarif (results st)
         = Some match env (generate_sarif_report_binary_analysis
                             capa_results ∅ workspace) with
                | inr report => report
                | inl _ => ∅
                end
       ∧ results_url (results st)
         = Some match env (upload_results (info_workflow_id info)
                             capa_results "json") with
                | inr url => Some url
                | inl _ => None
                end
       ∧ findings (results st) = Some (get_findings capa_results))
  ∧ (∀ target params workspace scan_results report,
       let '(out, st) :=
         LlmSecretDetectionWorkflow.run env info target params in
       env (get_target target (info_run_id info) "shared") = inr workspace →
       env (scan_with_llm workspace
              (LlmSecretDetectionWorkflow.scan_config params))
         = inr scan_results →
       env (llm_generate_sarif (get_findings scan_results)
              {[ "tool_name" :=
                   PStr ("llm-secret-detector ("
                         +:+ LlmSecretDetectionWorkflow.model_or_default
                               (LlmSecretDetectionWorkflow.llm_model params)
                         +:+ ")");
                 "tool_version" := PStr "1.0.0" ]}) = inr report →
       out = inr (results st)
       ∧ status (results st) = "success"
       ∧ sarif (results st) = Some report
       ∧ results_url (results st)
         = Some match env (upload_results (info_workflow_id info)
                             scan_results "json") with
                | inr url => Some url
                | inl _ => None
                end
       ∧ findings (results st) = Some (get_findings scan_results)).
Proof.
  split_and!.
  - intros target target_hash hint workspace config hashcat_results.
    destruct (HashCrackingWorkflow.run env info target target_hash hint)
      as [out st] eqn:Hrun.
    intros Hin Hcracked. unfold_run Hrun.
    run_cases env Hrun; revert Hin; observe; intros Hin.
    all: repeat (apply elem_of_cons in Hin as [Hin|Hin];
                 [try discriminate Hin |]);
      try (by apply elem_of_nil in Hin).
    all: simplify_eq; same_outcome env; use_outcomes env; by repeat split.
  - intros target target_file workspace capa_results.
    destruct (BinaryAnalysisWorkflow.run env info target target_file)
      as [out st] eqn:Hrun.
    intros Hfetch Hcapa. unfold_run Hrun.
    rewrite Hfetch in Hrun; cbv beta iota zeta in Hrun.
    rewrite Hcapa in Hrun.
    run_cases env Hrun; observe; use_outcomes env; by repeat split.
  - intros target params workspace scan_results report.
    destruct (LlmSecretDetectionWorkflow.run env info target params)
      as [out st] eqn:Hrun.
    intros Hfetch Hscan Hreport. unfold_run Hrun.
    rewrite Hfetch in Hrun; cbv beta iota zeta in Hrun.
    rewrite Hscan in Hrun; cbv beta iota zeta in Hrun.
    rewrite Hreport in Hrun.
    run_cases env Hrun; observe; use_outcomes env;
      case_decide; simplify_eq; by repeat split.
Qed.

(** Runs in which the report and the upload raise (hash cracking, binary
    analysis), or the upload alone (LLM secret detection). *)
Lemma report_and_upload_are_best_effort_witness :
  let raising :=
    world (with_upload_results (inl (ActivityError "bucket unreachable"))
             (with_report (inl report_unavailable) (all_fine []))) in
  let uploading :=
    world (with_upload_results (inl (ActivityError "bucket unreachable"))
             (all_fine [])) in
  (let '(out, st) :=
     HashCrackingWorkflow.run raising info0 "target-1" md5_hash (Some 0) in
   run_hashcat "/cache/run-1" {| hc_hash := md5_hash; hash_type := PInt 0 |}
     ∈ calls st
   ∧ status (results st) = "success"
   ∧ sarif (results st) = Some ∅
   ∧ results_url (results st) = Some None)
  ∧ (let '(out, st) :=
       BinaryAnalysisWorkflow.run raising info0 "target-1" "sample.bin" in
     status (results st) = "success"
     ∧ sarif (results st) = Some ∅
     ∧ results_url (results st) = Some None)
  ∧ (let '(out, st) :=
       LlmSecretDetectionWorkflow.run uploading info0 "target-1" no_params in
     status (results st) = "success"
     ∧ results_url (results st) = Some None).
Proof.
  cbv zeta.
  pose proof (report_and_upload_are_best_effort
                (world (with_upload_results
                          (inl (ActivityError "bucket unreachable"))
                          (with_report (inl report_unavailable)
                             (all_fine [])))) info0)
    as (Hcrack & Hcapa & _).
  pose proof (report_and_upload_are_best_effort
                (world (with_upload_results
                          (inl (ActivityError "bucket unreachable"))
                          (all_fine []))) info0)
    as (_ & _ & Hllm).
  specialize (Hcrack "target-1" md5_hash (Some 0) "/cache/run-1"
                {| hc_hash := md5_hash; hash_type := PInt 0 |} cracked).
  specialize (Hcapa "target-1" "sample.bin" "/cache/run-1" capabilities).
  specialize (Hllm "target-1" no_params "/cache/run-1" secrets
                {[ "version" := PStr "2.1.0" ]}).
  revert Hcrack Hcapa Hllm.
  destruct (HashCrackingWorkflow.run _ _ _ _ _) as [out1 st1] eqn:Hrun.
  destruct (BinaryAnalysisWorkflow.run _ _ _ _) as [out2 st2].
  destruct (LlmSecretDetectionWorkflow.run _ _ _ _) as [out3 st3].
  intros Hcrack Hcapa Hllm.
  assert (run_hashcat "/cache/run-1"
            {| hc_hash := md5_hash; hash_type := PInt 0 |} ∈ calls st1)
    as Hin.
  { vm_compute in Hrun. injection Hrun as _ <-.
    apply elem_of_cons; right. apply elem_of_cons; by left. }
  destruct (Hcrack Hin eq_refl) as (_ & ? & ? & ? & _).
  destruct (Hcapa eq_refl eq_refl) as (_ & ? & ? & ? & _).
  destruct (Hllm eq_refl eq_refl eq_refl) as (_ & ? & _ & ? & _).
  done.
Defined.

(** C7.  At the failing input: in the LLM secret detection the download and
    the scan return and the report activity raises.  The run raises and ends
    with status "error", not "success", with no report, no upload and no
    cleanup; the binary analysis in the same world returns with status
    "success" and the empty report. *)
Lemma llm_report_failure_is_an_error :
  let env := world (with_report (inl report_unavailable) (all_fine [])) in
  let '(out, st) :=
    LlmSecretDetectionWorkflow.run env info0 "target-1" no_params in
  let '(out', st') :=
    BinaryAnalysisWorkflow.run env info0 "target-1" "sample.bin" in
  env (get_target "target-1" "run-1" "shared") = inr "/cache/run-1"
  ∧ env (scan_with_llm "/cache/run-1"
           (LlmSecretDetectionWorkflow.scan_config no_params)) = inr secrets
  ∧ out = inl report_unavailable
  ∧ status (results st) = "error"
  ∧ status (results st) ≠ "success"
  ∧ sarif (results st) = None
  ∧ results_url (results st) = None
  ∧ invocations is_cleanup_cache st = 0%nat
  ∧ out' = inr (results st')
  ∧ status (results st') = "success"
  ∧ sarif (results st') = Some ∅.
Proof. vm_compute. repeat split; discriminate. Qed.

(** ** When a run is a success *)




(** ** Runs that raise *)

(** The lookup of the first key of a step record. *)
Lemma step_field_first (key : string) (v : pyval) (rest : gmap string pyval) :
  step_field key (<[key := v]> rest) = v.
Proof. unfold step_field, dict_get. by rewrite lookup_insert_eq. Qed.

(** X1.  A run of any of the three pipelines that raises [e] has set status
    "error", has set [error] to [str(e)] and has appended, as its last step,
    the record [{step: error, status: failed, error: str(e)}]; and [e] is the
    exception raised by the last activity the run invoked, unless it is the
    [TypeError] or [IndexError] of reading the identification result, in
    which case the identification is the last activity invoked. *)
Theorem raised_runs_record_the_error (env : Activities) (info : WorkflowInfo)
    (p : Pipeline) (e : exn) (st : wstate) :
  run_pipeline env info p = (inl e, st) →
  status (results st) = "error"
  ∧ error (results st) = Some (str e)
  ∧ last (steps (results st))
    = Some {[ "step" := PStr "error"; "status" := PStr "failed";
              "error" := PStr (str e) ]}
  ∧ ∃ c, last (calls st) = Some c
         ∧ (env c = inl e
            ∨ is_run_hashid c = true
              ∧ ∃ msg, e = TypeError msg ∨ e = IndexError msg).
Proof.
  intros Hrun.
  destruct p; unfold_run Hrun; run_cases env Hrun; observe;
    split_and!; try reflexivity; eexists; (split; [reflexivity |]);
    first [ by left | right; split; [reflexivity |] ].
  all: match goal with
       | H : py_gt_int _ _ = inl _ |- _ =>
           unfold py_gt_int in H; repeat case_match; simplify_eq; eauto
       | H : list_index _ _ = inl _ |- _ =>
           unfold list_index in H; repeat case_match; simplify_eq; eauto
       end.
Qed.

(** ** Runs that return *)

(** X2.  A run that returns has recorded a step for the download and for
    each analysis activity that returned, and for nothing else: the report,
    the upload and the cleanup leave no step record, and no step is named
    "error".  With a hint the hash cracking records two steps; without a hint
    two when it stops at the identification and three when it goes on to
    crack. *)
Theorem returning_runs_record_their_analysis_steps (env : Activities)
    (info : WorkflowInfo) (p : Pipeline) (r : RunRecord) (st : wstate) :
  run_pipeline env info p = (inr r, st) →
  step_names r =
    match p with
    | HashCracking _ _ (Some _) =>
        [PStr "download_target"; PStr "hash_cracking"]
    | HashCracking _ _ None =>
        if decide (status r = "success")
        then [PStr "download_target"; PStr "hash_identification";
              PStr "hash_cracking"]
        else [PStr "download_target"; PStr "hash_identification"]
    | BinaryAnalysis _ _ => [PStr "download_target"; PStr "fuzzing"]
    | LlmSecretDetection _ _ => [PStr "download"; PStr "llm_scan"]
    end.
Proof.
  intros Hrun.
  destruct p; unfold_run Hrun; run_cases env Hrun;
    unfold step_names; cbn [steps status map];
    rewrite ?step_field_first; try case_decide; done.
Qed.

(** X3.  A run that returns with status "success" carries, unchanged, the
    findings and the summary of the result its analysis activity returned
    (the cracking activity, not the identification, in the hash cracking),
    with the empty list and the empty mapping for entries the result
    lacks. *)
Theorem success_carries_the_analysis_result (env : Activities)
    (info : WorkflowInfo) (p : Pipeline) (r : RunRecord) (st : wstate) :
  run_pipeline env info p = (inr r, st) →
  status r = "success" →
  ∃ workspace analysis,
    env (get_target (target_of p) (info_run_id info) (isolation_of p))
      = inr workspace
    ∧ match p with
      | HashCracking _ target_hash _ =>
          ∃ mode,
            env (run_hashcat workspace
                   {| hc_hash := target_hash; hash_type := mode |})
              = inr analysis
      | BinaryAnalysis _ target_file =>
          env (run_capa workspace {[ "target_file" := PStr target_file ]})
            = inr analysis
      | LlmSecretDetection _ params =>
          env (scan_with_llm workspace
                 (LlmSecretDetectionWorkflow.scan_config params))
            = inr analysis
      end
    ∧ findings r = Some (get_findings analysis)
    ∧ summary r = Some (get_summary analysis).
Proof.
  intros Hrun Hok.
  destruct p; unfold_run Hrun; run_cases env Hrun;
    cbn [status] in Hok; try discriminate Hok;
    cbn [target_of isolation_of findings summary];
    eexists _, _; split_and!; eauto.
Qed.

(** ** What a returned record holds *)

(** X17.  A run that returns hands back the record it built, with status
    "success", or, for a hash cracking without a hint only, "aborted" or
    "needs_selection"; never "running", "error" or the status of a module.
    The record has findings and a SARIF entry (the empty mapping when a
    guarded report failed); it has an [error] entry exactly when its status
    is "aborted". *)
Theorem returned_records_are_complete (env : Activities)
    (info : WorkflowInfo) (p : Pipeline) (r : RunRecord) (st : wstate) :
  run_pipeline env info p = (inr r, st) →
  r = results st
  ∧ (status r = "success"
     ∨ (∃ target target_hash, p = HashCracking target target_hash None)
       ∧ (status r = "aborted" ∨ status r = "needs_selection"))
  ∧ is_Some (findings r)
  ∧ is_Some (sarif r)
  ∧ (is_Some (error r) ↔ status r = "aborted").
Proof.
  intros Hrun.
  destruct p; unfold_run Hrun; run_cases env Hrun; observe;
    split_and!; eauto 6; (split; [by intros [? ?] | by eauto]).
Qed.

(** ** Order and arguments of the invocations *)

(** X4.  In every run of the three pipelines the first activity invoked is
    the download of the run's target, with the run id of the workflow and the
    isolation mode of the pipeline ("isolated", or "shared" for the LLM
    secret detection).  Every activity that takes a workspace path is given
    the path the download returned, and the cleanup is given the isolation
    mode of the download. *)
Theorem activities_share_the_fetched_workspace (env : Activities)
    (info : WorkflowInfo) (p : Pipeline) :
  let st := (run_pipeline env info p).2 in
  let fetch :=
    get_target (target_of p) (info_run_id info) (isolation_of p) in
  head (calls st) = Some fetch
  ∧ (∀ c workspace,
       c ∈ calls st → workspace_of c = Some workspace →
       env fetch = inr workspace)
  ∧ (∀ workspace isolation,
       cleanup_cache workspace isolation ∈ calls st →
       isolation = isolation_of p).
Proof.
  destruct (run_pipeline env info p) as [out st] eqn:Hrun.
  destruct p; unfold_run Hrun; run_cases env Hrun; observe;
    cbn [target_of isolation_of head]; split_and!; try reflexivity.
  all: intros ?? Hin; try intros Hws;
    repeat (apply elem_of_cons in Hin as [Hin|Hin];
            [simplify_eq; try discriminate Hws; try done |]);
    try (by apply elem_of_nil in Hin).
  all: by cbn [workspace_of] in Hws; simplify_eq.
Qed.

(** X5.  No run invokes an activity of the same name twice: the
    identification, the cracking, the report (which the hash cracking calls
    at four places), the upload and the cleanup are each invoked at most
    once. *)
Theorem each_activity_is_invoked_at_most_once (env : Activities)
    (info : WorkflowInfo) (p : Pipeline) :
  NoDup (map activity_name (calls (run_pipeline env info p).2)).
Proof.
  destruct (run_pipeline env info p) as [out st] eqn:Hrun.
  destruct p; unfold_run Hrun; run_cases env Hrun; observe;
    cbn [map activity_name];
    repeat (apply NoDup_cons; split;
            [ intros Hin;
              repeat (apply elem_of_cons in Hin as [Hin|Hin];
                      [discriminate Hin |]);
              by apply elem_of_nil in Hin | ]);
    apply NoDup_nil_2.
Qed.

(** ** Identification results the branch cannot read *)

(** X6.  Without a hint, when the identification returns a result whose
    [total_matches] is not [== 0] and either cannot be ordered against 1
    (a string, a list, [None]: [TypeError]) or is not [> 1] while the
    findings are empty ([IndexError] at [findings[0]]), the run raises that
    exception and ends with status "error"; the identification is its last
    activity: no report, no cracking, no cleanup. *)
Theorem unreadable_identification_is_an_error (env : Activities)
    (info : WorkflowInfo) (target target_hash path : string)
    (hashid_results : ActivityResult) (e : exn) :
  env (get_target target (info_run_id info) "isolated") = inr path →
  env (run_hashid path {| hash := Some target_hash |}) = inr hashid_results →
  py_eq_int (HashCrackingWorkflow.total_matches_of hashid_results) 0 = false →
  py_gt_int (HashCrackingWorkflow.total_matches_of hashid_results) 1 = inl e
  ∨ py_gt_int (HashCrackingWorkflow.total_matches_of hashid_results) 1
      = inr false
    ∧ get_findings hashid_results = []
    ∧ e = IndexError "list index out of range" →
  let '(out, st) :=
    HashCrackingWorkflow.run env info target target_hash None in
  out = inl e
  ∧ status (results st) = "error"
  ∧ error (results st) = Some (str e)
  ∧ calls st = [get_target target (info_run_id info) "isolated";
                run_hashid path {| hash := Some target_hash |}].
Proof.
  intros Hfetch Hid Hnonzero Hbad.
  destruct (HashCrackingWorkflow.run env info target target_hash None)
    as [out st] eqn:Hrun.
  enter_identified Hfetch Hid Hrun. rewrite Hnonzero in Hrun.
  destruct Hbad as [Hgt | (Hgt & Hnone & ->)]; rewrite Hgt in Hrun;
    [| rewrite Hnone in Hrun;
       change (list_index (@nil Finding) 0)
         with (@inl exn Finding (IndexError "list index out of range"))
         in Hrun ];
    run_cases env Hrun; observe; done.
Qed.

(** ** The configuration of the LLM scan *)

Section ScanConfig.

Import LlmSecretDetectionWorkflow.

Lemma lookup_put_str_ne (key key' : string) (x : option string)
    (config : gmap string pyval) :
  key ≠ key' → put_str key x config !! key' = config !! key'.
Proof.
  intros Hne. unfold put_str. destruct x as [s|]; [| done].
  case_decide; [done |]. by rewrite lookup_insert_ne.
Qed.

Lemma lookup_put_int_ne (key key' : string) (x : option Z)
    (config : gmap string pyval) :
  key ≠ key' → put_int key x config !! key' = config !! key'.
Proof.
  intros Hne. unfold put_int. destruct x as [z|]; [| done].
  case_decide; [done |]. by rewrite lookup_insert_ne.
Qed.

Lemma lookup_put_list_ne (key key' : string) (x : option (list string))
    (config : gmap string pyval) :
  key ≠ key' → put_list key x config !! key' = config !! key'.
Proof.
  intros Hne. unfold put_list. destruct x as [l|]; [| done].
  case_decide; [done |]. by rewrite lookup_insert_ne.
Qed.

Lemma lookup_put_str_eq (key : string) (x : option string)
    (config : gmap string pyval) (v : pyval) :
  config !! key = None →
  put_str key x config !! key = Some v ↔
    ∃ s, x = Some s ∧ s ≠ "" ∧ v = PStr s.
Proof.
  intros Hfree. unfold put_str. destruct x as [s|].
  - case_decide; [rewrite Hfree | rewrite lookup_insert_eq].
    + split; [done | by intros (? & [= <-] & ? & _)].
    + split; [intros [= <-]; eauto | by intros (? & [= <-] & _ & ->)].
  - rewrite Hfree. split; [done | by intros (? & ? & _)].
Qed.

Lemma lookup_put_int_eq (key : string) (x : option Z)
    (config : gmap string pyval) (v : pyval) :
  config !! key = None →
  put_int key x config !! key = Some v ↔
    ∃ z, x = Some z ∧ z ≠ 0 ∧ v = PInt z.
Proof.
  intros Hfree. unfold put_int. destruct x as [z|].
  - case_decide; [rewrite Hfree | rewrite lookup_insert_eq].
    + split; [done | by intros (? & [= <-] & ? & _)].
    + split; [intros [= <-]; eauto | by intros (? & [= <-] & _ & ->)].
  - rewrite Hfree. split; [done | by intros (? & ? & _)].
Qed.

Lemma lookup_put_list_eq (key : string) (x : option (list string))
    (config : gmap string pyval) (v : pyval) :
  config !! key = None →
  put_list key x config !! key = Some v ↔
    ∃ l, x = Some l ∧ l ≠ [] ∧ v = PList l.
Proof.
  intros Hfree. unfold put_list. destruct x as [l|].
  - case_decide; [rewrite Hfree | rewrite lookup_insert_eq].
    + split; [done | by intros (? & [= <-] & ? & _)].
    + split; [intros [= <-]; eauto | by intros (? & [= <-] & _ & ->)].
  - rewrite Hfree. split; [done | by intros (? & ? & _)].
Qed.

(** The lookup of a key that none of the assignments sets. *)
Lemma lookup_scan_config_other (p : Params) (key : string) :
  key ∉ ["agent_url"; "llm_model"; "llm_provider"; "max_files";
         "max_file_size"; "timeout"; "file_patterns"] →
  scan_config p !! key = None.
Proof.
  intros Hother. unfold scan_config.
  rewrite lookup_put_list_ne, !lookup_put_int_ne, !lookup_put_str_ne;
    [apply lookup_empty | intros <-; apply Hother; set_solver ..].
Qed.

(** X7.  The configuration handed to [scan_with_llm] holds an entry exactly
    for each parameter of the run that is truthy, under the name of the
    parameter and with its value: a parameter that is [None], the empty
    string, the number 0 or the empty list is left out, and there is no other
    entry. *)
Theorem scan_config_keeps_truthy_parameters (p : Params) (key : string)
    (v : pyval) :
  scan_config p !! key = Some v ↔
    (key = "agent_url" ∧ ∃ s, agent_url p = Some s ∧ s ≠ "" ∧ v = PStr s)
    ∨ (key = "llm_model" ∧ ∃ s, llm_model p = Some s ∧ s ≠ "" ∧ v = PStr s)
    ∨ (key = "llm_provider"
       ∧ ∃ s, llm_provider p = Some s ∧ s ≠ "" ∧ v = PStr s)
    ∨ (key = "max_files" ∧ ∃ z, max_files p = Some z ∧ z ≠ 0 ∧ v = PInt z)
    ∨ (key = "max_file_size"
       ∧ ∃ z, max_file_size p = Some z ∧ z ≠ 0 ∧ v = PInt z)
    ∨ (key = "timeout" ∧ ∃ z, timeout p = Some z ∧ z ≠ 0 ∧ v = PInt z)
    ∨ (key = "file_patterns"
       ∧ ∃ l, file_patterns p = Some l ∧ l ≠ [] ∧ v = PList l).
Proof.
  destruct (decide (key ∈ ["agent_url"; "llm_model"; "llm_provider";
                           "max_files"; "max_file_size"; "timeout";
                           "file_patterns"])) as [Hin|Hother].
  - unfold scan_config.
    repeat (apply elem_of_cons in Hin as [->|Hin]);
      [.. | by apply elem_of_nil in Hin];
      rewrite ?lookup_put_list_ne, ?lookup_put_int_ne, ?lookup_put_str_ne
        by done;
      first [ rewrite lookup_put_str_eq | rewrite lookup_put_int_eq
            | rewrite lookup_put_list_eq ];
      try (by rewrite ?lookup_put_list_ne, ?lookup_put_int_ne,
             ?lookup_put_str_ne, ?lookup_empty by done);
      (split; [intros H; repeat first [ left; split; [reflexivity |]; exact H
                                      | right; split; [reflexivity |]; exact H
                                      | right ]
              | intros H; destruct_or!; by destruct H as [? H]]).
  - rewrite lookup_scan_config_other by done.
    split; [done | intros H; destruct_or!; destruct H as [-> _];
                   exfalso; apply Hother; set_solver].
Qed.

End ScanConfig.

(** ** The hashcat module *)

Section HashcatModule.

Import Hashcat.

Variables (text : PythonText) (w : World) (config : hashcat_config).

(** [crack] returns exactly when every step of [execute] goes through. *)
Lemma crack_returns (r : ActivityResult) :
  crack text w config = inr r ↔
    hc_hash config ≠ ""
    ∧ hash_type config ≠ PNone
    ∧ validate_workspace w = inr tt
    ∧ (∃ process,
         create_subprocess_exec w
           (command (hc_hash config) (py_str text (hash_type config))
              (potfile_path w)) = inr process
         ∧ returncode process = 0)
    ∧ ∃ plaintext,
        plaintext_of text w = Some plaintext
        ∧ r = HashIdIdentifier.create_result
                [cracked_finding (hc_hash config)
                   (py_str text (hash_type config)) plaintext]
                "success" (Some {[ "plaintext" := PStr plaintext ]})
                (Some ∅) None.
Proof.
  unfold crack, validate_config, plaintext_of.
  destruct (decide (hc_hash config = "")) as [Hempty|Hhash];
    [split; [done | by intros [? _]] |].
  destruct (decide (hash_type config = PNone)) as [Hnone|Htype];
    [rewrite Hnone; split; [done | by intros (_ & ? & _)] |].
  assert (∀ A (x y : exception + A),
            match hash_type config with PNone => x | _ => y end = y)
    as -> by (intros; by destruct (hash_type config)).
  destruct (validate_workspace w) as [exc|[]];
    [split; [done | by intros (_ & _ & ? & _)] |].
  destruct (create_subprocess_exec w _) as [exc|process];
    [split; [done | by intros (_ & _ & _ & (? & ? & _) & _)] |].
  destruct (decide (returncode process ≠ 0)) as [Hcode|Hcode].
  { split; [done | intros (_ & _ & _ & (? & [= <-] & ?) & _); done]. }
  assert (returncode process = 0)
    by (by destruct (decide (returncode process = 0))).
  destruct (potfile w) as [[exc|line]|].
  - split; [done | by intros (_ & _ & _ & _ & ? & ? & _)].
  - split.
    + intros [= <-]. split_and!; eauto.
    + by intros (_ & _ & _ & _ & ? & [= <-] & ->).
  - split.
    + intros [= <-]. split_and!; eauto.
    + by intros (_ & _ & _ & _ & ? & [= <-] & ->).
Qed.

(** X8.  [Hashcat.execute] returns a result with status "failed" exactly
    when the hash is empty, the hash type is [None] (the type 0 is accepted),
    the workspace is not valid, the process cannot be started, hashcat exits
    with a code other than 0, or the pot file cannot be read.  A failed
    result has no finding, carries the text of the exception, and keeps the
    hash in its metadata; any other result has status
    "success". *)
Theorem hashcat_fails_without_findings :
  let r := execute text w config in
  let cmd :=
    command (hc_hash config) (py_str text (hash_type config))
      (potfile_path w) in
  (ar_status r = Some "failed" ↔
     hc_hash config = ""
     ∨ hash_type config = PNone
     ∨ (∃ exc, validate_workspace w = inl exc)
     ∨ (∃ exc, create_subprocess_exec w cmd = inl exc)
     ∨ (∃ process, create_subprocess_exec w cmd = inr process
                   ∧ returncode process ≠ 0)
     ∨ (∃ exc, potfile w = Some (inl exc)))
  ∧ (ar_status r = Some "failed" →
     ar_findings r = Some []
     ∧ is_Some (ar_error r)
     ∧ (ar_metadata r ≫= (.!! "hash_input")) = Some (PStr (hc_hash config)))
  ∧ (ar_status r ≠ Some "failed" → ar_status r = Some "success").
Proof.
  cbv zeta. unfold execute.
  destruct (crack text w config) as [exc|r] eqn:Hcrack.
  - split_and!; [split; [intros _ | done] | intros _ | done].
    + unfold crack, validate_config in Hcrack.
      destruct (decide (hc_hash config = "")); [by left |].
      destruct (decide (hash_type config = PNone)); [by right; left |].
      destruct (hash_type config); [done | ..].
      all: destruct (validate_workspace w); [do 2 right; left; by eauto |].
      all: destruct (create_subprocess_exec w _) as [|process] eqn:Hspawn;
        [do 3 right; left; by eauto |].
      all: destruct (decide (returncode process ≠ 0));
        [do 4 right; left; by eauto |].
      all: destruct (potfile w) as [[|]|]; [do 5 right; by eauto | done ..].
    + by split_and!.
  - apply crack_returns in Hcrack
      as (Hhash & Htype & Hws & (process & Hspawn & Hcode) & pt & Hpot & ->).
    split_and!; [split; [done |] | done | done].
    intros H. destruct_or!; try done.
    + destruct H as [exc H]. by rewrite Hws in H.
    + destruct H as [exc H]. by rewrite Hspawn in H.
    + destruct H as (process' & H & Hcode'). rewrite Hspawn in H.
      by injection H as <-.
    + destruct H as [exc H]. unfold plaintext_of in Hpot. by rewrite H in Hpot.
Qed.

(** X9.  When [Hashcat.execute] returns status "success", hashcat exited
    with code 0 and the result has exactly one finding, "Cracked Hash" of
    severity "critical", whose plaintext is also the ["plaintext"] of the
    summary: the stripped first line of the pot file, and the empty string
    when hashcat left no pot file. *)
Theorem hashcat_success_reports_one_finding :
  let r := execute text w config in
  ar_status r = Some "success" →
  let plaintext :=
    match potfile w with
    | Some (inr line) => py_strip text line
    | _ => ""
    end in
  let finding :=
    cracked_finding (hc_hash config) (py_str text (hash_type config))
      plaintext in
  ar_findings r = Some [finding]
  ∧ title finding = "Cracked Hash"
  ∧ severity finding = "critical"
  ∧ metadata finding !! "plaintext" = Some (PStr plaintext)
  ∧ (ar_summary r ≫= (.!! "plaintext")) = Some (PStr plaintext)
  ∧ ∃ process,
      create_subprocess_exec w
        (command (hc_hash config) (py_str text (hash_type config))
           (potfile_path w)) = inr process
      ∧ returncode process = 0.
Proof.
  cbv zeta. unfold execute.
  destruct (crack text w config) as [exc|r] eqn:Hcrack; [done |].
  apply crack_returns in Hcrack
    as (Hhash & Htype & Hws & Hprocess & pt & Hpot & ->).
  intros _.
  assert (match potfile w with
          | Some (inr line) => py_strip text line
          | _ => ""
          end = pt) as ->.
  { unfold plaintext_of in Hpot. by destruct (potfile w) as [[|]|]; simplify_eq. }
  by split_and!.
Qed.

End HashcatModule.

(** ** The hash cracking over the cracking activity *)

Section HashCrackingOnAWorker.

Variables (text : PythonText) (host : Worker.Host).
Variable failure : exception → exn.
Variable rest : Activities.

Let env : Activities := implemented text host failure rest.

(** When the attempt of [run_hashcat] returns: the module loads, the
    workspace exists, and the attempt ends within its timeout. *)
Lemma run_hashcat_attempt_returns (workspace : string)
    (config : hashcat_config) (result : ActivityResult) :
  env (run_hashcat workspace config) = inr result ↔
    (Worker.import_module host "Hashcat" = inr tt
     ∧ Worker.workspace_exists host workspace = true
     ∧ Worker.construct host "Hashcat" = inr tt
     ∧ (Worker.seconds host (run_hashcat workspace config)
       ≤ Worker.hashcat_timeout)%Z)
    ∧ result = Hashcat.execute text (Worker.hashcat_world host workspace)
                 config.
Proof.
  unfold env, implemented, Worker.single_attempt, Worker.run_hashcat.
  case_decide as Hlate.
  { split; [done | intros [(_ & _ & _ & ?) _]; lia]. }
  destruct (Worker.import_module host "Hashcat") as [exc|[]];
    [split; [done | by intros [(? & _) _]] |].
  destruct (Worker.workspace_exists host workspace);
    [| split; [done | by intros [(_ & ? & _) _]] ].
  destruct (Worker.construct host "Hashcat") as [exc|[]];
    [split; [done | by intros [(_ & _ & ? & _) _]] |].
  split.
  - intros [= <-]. split_and!; [done | done | done | lia | done].
  - by intros [_ ->].
Qed.

(** X11.  Over the activity [run_hashcat] as written, invoked once with a
    timeout of 30 minutes, a hash-cracking run with a hint whose download
    returns ends with status "success" exactly when the attempt of the
    activity returns: the module loads, the workspace exists and the attempt
    ends within the timeout.  What hashcat did plays no part: the findings
    of the record are then those of [Hashcat.execute] (at most one), its last
    step, [hash_cracking], carries the status of the module, and the record
    has no [error] entry.  Otherwise the run raises with status "error",
    without findings and without cleanup. *)
Theorem hash_cracking_with_hint_succeeds_whatever_hashcat_did
    (info : WorkflowInfo) (target target_hash workspace : string)
    (hint : Z) :
  rest (get_target target (info_run_id info) "isolated") = inr workspace →
  let config := {| hc_hash := target_hash; hash_type := PInt hint |} in
  let module_result :=
    Hashcat.execute text (Worker.hashcat_world host workspace) config in
  let attempt_returns :=
    Worker.import_module host "Hashcat" = inr tt
    ∧ Worker.workspace_exists host workspace = true
    ∧ Worker.construct host "Hashcat" = inr tt
    ∧ (Worker.seconds host (run_hashcat workspace config)
      ≤ Worker.hashcat_timeout)%Z in
  let '(out, st) :=
    HashCrackingWorkflow.run env info target target_hash (Some hint) in
  (status (results st) = "success" ↔ attempt_returns)
  ∧ (attempt_returns →
     out = inr (results st)
     ∧ findings (results st) = ar_findings module_result
     ∧ (length (get_findings module_result) ≤ 1)%nat
     ∧ (step_field "status" <$> last (steps (results st)))
       = PStr <$> ar_status module_result
     ∧ error (results st) = None)
  ∧ (¬ attempt_returns →
     (∃ e, out = inl e)
     ∧ status (results st) = "error"
     ∧ findings (results st) = None
     ∧ invocations is_cleanup_cache st = 0%nat).
Proof.
  intros Hfetch. cbv zeta.
  set (config := {| hc_hash := target_hash; hash_type := PInt hint |}).
  destruct (HashCrackingWorkflow.run env info target target_hash (Some hint))
    as [out st] eqn:Hrun.
  unfold_run Hrun.
  assert (env (get_target target (info_run_id info) "isolated")
          = inr workspace) as Hfetch' by exact Hfetch.
  rewrite Hfetch' in Hrun. cbv beta iota zeta in Hrun.
  fold config in Hrun.
  destruct (env (run_hashcat workspace config)) as [e|result] eqn:Hcrack.
  - assert (¬ (Worker.import_module host "Hashcat" = inr tt
               ∧ Worker.workspace_exists host workspace = true
               ∧ Worker.construct host "Hashcat" = inr tt
               ∧ (Worker.seconds host (run_hashcat workspace config)
                 ≤ Worker.hashcat_timeout)%Z)) as Hnot.
    { intros Hall.
      assert (env (run_hashcat workspace config)
              = inr (Hashcat.execute text (Worker.hashcat_world host workspace)
                       config)) as Hr
        by (by apply run_hashcat_attempt_returns).
      congruence. }
    cbv beta iota zeta in Hrun. simplify_eq. observe.
    split_and!; [split; [done | by intros ?] | by intros ? |].
    intros _. split_and!; eauto.
  - apply run_hashcat_attempt_returns in Hcrack as [Hall ->].
    cbv beta iota zeta in Hrun.
    assert (∃ fs st', ar_findings (Hashcat.execute text
              (Worker.hashcat_world host workspace) config) = Some fs
            ∧ (length fs ≤ 1)%nat
            ∧ ar_status (Hashcat.execute text
                (Worker.hashcat_world host workspace) config) = Some st')
      as (fs & st' & Hfs & Hlen & Hst).
    { unfold Hashcat.execute.
      destruct (Hashcat.crack _ _ _) as [exc|r] eqn:Hr.
      - exists [], "failed". cbn. split_and!; [done | lia | done].
      - apply crack_returns in Hr as (_ & _ & _ & _ & pt & _ & ->).
        eexists _, _. cbn. split_and!; [done | cbn; lia | done]. }
    run_cases env Hrun; observe; unfold get_findings;
      rewrite ?Hfs, ?Hst; cbn [default from_option id];
      (split_and!; [split; [done | by intros _] | | by intros ?]);
      intros _; split_and!; try done.
    all: unfold step_field, dict_get;
      by rewrite lookup_insert_ne, lookup_insert_eq.
Qed.

End HashCrackingOnAWorker.

(** ** The capa module *)

Section CapaModule.

Variables (text : PythonText) (w : Capa.World).

Lemma severity_is_high_medium_or_low (namespace : string) :
  Capa._get_capability_severity text namespace ∈ ["high"; "medium"; "low"].
Proof.
  unfold Capa._get_capability_severity.
  repeat case_match; repeat (first [by left | right]).
Qed.

(** The loop makes a finding of a rule exactly when it can read the
    namespace of the rule. *)
Lemma finding_of_rule_returns (rule_name : string) (rule_data : json)
    (finding : Finding) :
  Capa.finding_of_rule text rule_name rule_data = inr finding ↔
    ∃ namespace,
      namespace_of rule_data = Some namespace
      ∧ finding
        = HashIdIdentifier.create_finding rule_name
            (Capa._get_capability_recommendation text namespace rule_name)
            (Capa._get_capability_severity text namespace) "capability" ∅.
Proof.
  unfold namespace_of, Capa.finding_of_rule, json_get.
  destruct rule_data as [| | | | | |d];
    try (split; [done | by intros (? & ? & _)]).
  destruct (assoc "meta" d) as [meta|]; cbn [default from_option id].
  - destruct meta as [| | | | | |m];
      try (split; [done | by intros (? & ? & _)]).
    destruct (assoc "namespace" m) as [ns|]; cbn [default from_option id].
    + destruct ns; try (split; [done | by intros (? & ? & _)]).
      split; [intros [= <-]; eauto | by intros (? & [= <-] & ->)].
    + split; [intros [= <-]; eauto | by intros (? & [= <-] & ->)].
  - cbn. split; [intros [= <-]; eauto | by intros (? & [= <-] & ->)].
Qed.

Lemma finding_of_rule_raises (rule_name : string) (rule_data : json) :
  namespace_of rule_data = None ↔
    ∃ exc, Capa.finding_of_rule text rule_name rule_data = inl exc.
Proof.
  destruct (Capa.finding_of_rule text rule_name rule_data) as [exc|f] eqn:Hf.
  - split; [eauto | intros _].
    destruct (namespace_of rule_data) as [ns|] eqn:Hns; [| done].
    assert (Capa.finding_of_rule text rule_name rule_data
            = inr (HashIdIdentifier.create_finding rule_name
                     (Capa._get_capability_recommendation text ns rule_name)
                     (Capa._get_capability_severity text ns) "capability" ∅))
      by (apply finding_of_rule_returns; eauto).
    congruence.
  - apply finding_of_rule_returns in Hf as (ns & Hns & _).
    rewrite Hns. split; [done | by intros [? ?]].
Qed.

(** The findings of the loop over the rules: those of all rules when every
    namespace can be read, and otherwise those of the rules before the first
    one whose namespace cannot. *)
Lemma findings_of_rules_spec (rules : list (string * json)) :
  (Forall (λ rule, is_Some (namespace_of rule.2)) rules →
   Forall2 (is_capability_of text) rules (Capa.findings_of_rules text rules))
  ∧ (∀ before rule after,
       rules = (before ++ rule :: after)%list →
       Forall (λ rule, is_Some (namespace_of rule.2)) before →
       namespace_of rule.2 = None →
       Forall2 (is_capability_of text) before
         (Capa.findings_of_rules text rules)).
Proof.
  induction rules as [|[rule_name rule_data] rest IH].
  { split; [by constructor |].
    intros [|??] ?? Heq; [done | discriminate Heq]. }
  destruct IH as [IHall IHcut].
  cbn [Capa.findings_of_rules].
  destruct (Capa.finding_of_rule text rule_name rule_data) as [exc|finding]
    eqn:Hrule.
  - assert (namespace_of rule_data = None) as Hnone
      by (apply (finding_of_rule_raises rule_name); eauto).
    split.
    + intros Hall. apply Forall_cons in Hall as [[ns Hns] _].
      cbn in Hns. congruence.
    + intros [|first before] rule after Heq Hbefore Hbad.
      * constructor.
      * injection Heq as <- _.
        apply Forall_cons in Hbefore as [[ns Hns] _].
        cbn in Hns. congruence.
  - apply finding_of_rule_returns in Hrule as (ns & Hns & ->).
    assert (is_capability_of text (rule_name, rule_data)
              (HashIdIdentifier.create_finding rule_name
                 (Capa._get_capability_recommendation text ns rule_name)
                 (Capa._get_capability_severity text ns) "capability" ∅))
      as Hfirst by (exists ns; by split_and!).
    split.
    + intros Hall. apply Forall_cons in Hall as [_ Hall].
      constructor; [exact Hfirst | by apply IHall].
    + intros [|first before] rule after Heq Hbefore Hbad.
      * injection Heq as <- _. cbn in Hbad. congruence.
      * injection Heq as <- Heq.
        apply Forall_cons in Hbefore as [_ Hbefore].
        constructor; [exact Hfirst | by eapply IHcut].
Qed.

Lemma findings_of_rules_severity (rules : list (string * json)) :
  ∀ f, f ∈ Capa.findings_of_rules text rules →
    category f = "capability" ∧ severity f ∈ ["high"; "medium"; "low"].
Proof.
  induction rules as [|[rule_name rule_data] rest IH];
    [by intros f ?%elem_of_nil |].
  cbn [Capa.findings_of_rules].
  destruct (Capa.finding_of_rule text rule_name rule_data) as [exc|finding]
    eqn:Hrule; [by intros f ?%elem_of_nil |].
  apply finding_of_rule_returns in Hrule as (ns & _ & ->).
  intros f [->|Hin]%elem_of_cons; [| by apply IH].
  split; [done | apply severity_is_high_medium_or_low].
Qed.

(** X12.  [_parse_capa_output] turns the rules of capa's JSON document into
    findings, one for each rule and in the order of the document, with the
    name of the rule as title, category "capability", the recommendation and
    the severity of the rule's namespace; the severity is "high", "medium" or
    "low", never "critical".  Blank output and output that is not JSON give
    no finding.  The loop stops without notice at the first rule whose
    namespace it cannot read: the findings are then exactly those of the
    rules before that one, and the rules after it are dropped even when they
    are readable. *)
Theorem capa_findings_are_the_rules_before_the_first_unreadable_one
    (output : string) :
  let found := Capa._parse_capa_output text w output in
  (∀ f, f ∈ found →
     category f = "capability" ∧ severity f ∈ ["high"; "medium"; "low"])
  ∧ (py_strip text output = "" ∨ (∃ exc, Capa.loads w output = inl exc) →
     found = [])
  ∧ (∀ document rules,
       py_strip text output ≠ "" →
       Capa.loads w output = inr (JDict document) →
       assoc "rules" document = Some (JDict rules) →
       (Forall (λ rule, is_Some (namespace_of rule.2)) rules →
        Forall2 (is_capability_of text) rules found)
       ∧ (∀ before rule after,
            rules = (before ++ rule :: after)%list →
            Forall (λ rule, is_Some (namespace_of rule.2)) before →
            namespace_of rule.2 = None →
            Forall2 (is_capability_of text) before found)).
Proof.
  cbv zeta. unfold Capa._parse_capa_output. split_and!.
  - intros f Hin. repeat case_match; try by apply elem_of_nil in Hin.
    match goal with
    | H : f ∈ Capa.findings_of_rules text ?l |- _ =>
        by apply (findings_of_rules_severity l)
    end.
  - intros [Hblank|[exc Hexc]].
    + by rewrite decide_True.
    + rewrite Hexc. by case_decide.
  - intros document rules Hblank Hloads Hrules.
    rewrite decide_False, Hloads by done.
    unfold json_get. rewrite Hrules. cbn [default from_option id json_items].
    apply findings_of_rules_spec.
Qed.

(** The two shapes of a result of [Capa.execute]. *)
Lemma capa_result_shape (config : gmap string pyval) :
  let r := Capa.execute text w config in
  (ar_status r = Some "success"
   ∧ ar_error r = None
   ∧ ∃ target_file found,
       ar_findings r = Some found
       ∧ ar_summary r
         = Some {[ "target_file" := PStr target_file;
                   "capabilities_found" := PInt (Z.of_nat (length found));
                   "analysis_completed" := PBool true ]})
  ∨ (ar_status r = Some "failed"
     ∧ ar_findings r = Some []
     ∧ is_Some (ar_error r)).
Proof.
  cbv zeta. unfold Capa.execute.
  destruct (Capa.analyse text w config) as [exc|r] eqn:Hr.
  - right. by destruct exc.
  - unfold Capa.analyse in Hr.
    repeat case_match; simplify_eq; try (by right).
    left. split_and!; [done | done |]. by eexists _, _.
Qed.

(** What the binary-analysis workflow reads from a result of the module: a
    success carries the number of its findings as [capabilities_found], and
    any other result has no finding. *)
Lemma capabilities_found_is_the_number_of_findings
    (config : gmap string pyval) :
  let r := Capa.execute text w config in
  ar_findings r = Some (get_findings r)
  ∧ (ar_status r = Some "success" →
     dict_get_default (get_summary r) "capabilities_found" (PInt 0)
     = PInt (Z.of_nat (length (get_findings r))))
  ∧ (ar_status r ≠ Some "success" → ar_findings r = Some []).
Proof.
  cbv zeta.
  destruct (capa_result_shape config)
    as [(Hs & _ & target_file & found & Hfs & Hsum)|(Hs & Hfs & _)];
    unfold get_findings, get_summary, dict_get_default;
    rewrite Hfs; cbn [default from_option id length].
  - split_and!; [done | | done]. intros _. rewrite Hsum.
    cbn [default from_option id].
    by rewrite lookup_insert_ne, lookup_insert_eq.
  - split_and!; [done | | done]. intros Hok. rewrite Hs in Hok.
    discriminate Hok.
Qed.

(** X13.  [Capa.execute] returns status "success" exactly when the
    configuration names a target file that is a regular file of a valid
    workspace, capa starts and exits with 0, and its output decodes; whether
    the output is a JSON document plays no part.  The findings are then those
    of [_parse_capa_output] on the stripped output, and [capabilities_found]
    in the summary is their number. *)
Theorem capa_success_counts_its_findings (config : gmap string pyval) :
  let r := Capa.execute text w config in
  (ar_status r = Some "success" ↔
     ∃ target_file process decoded,
       config !! "target_file" = Some (PStr target_file)
       ∧ Capa.validate_workspace w = inr tt
       ∧ Capa.target_kind w target_file = Capa.RegularFile
       ∧ Capa.create_subprocess_exec w
           ["capa"; Capa.target_path w target_file; "--json"] = inr process
       ∧ returncode process = 0
       ∧ Capa.decode w (stdout process) = inr decoded
       ∧ ar_findings r
         = Some (Capa._parse_capa_output text w (py_strip text decoded)))
  ∧ (ar_status r = Some "success" →
     (ar_summary r ≫= (.!! "capabilities_found"))
     = Some (PInt (Z.of_nat (length (get_findings r))))
     ∧ ar_error r = None).
Proof.
  cbv zeta. unfold Capa.execute, Capa.analyse, Capa.validate_config, dict_get.
  destruct (config !! "target_file") as [v|] eqn:Hcfg;
    cbn [default from_option id];
    [| by split; [split; [| intros (? & ? & ? & ? & _)] |] ].
  destruct (Capa.validate_workspace w) as [exc|[]] eqn:Hws.
  { split; [split; [| by intros (? & ? & ? & _ & ? & _)] |];
      by destruct exc. }
  destruct v as [| | |target_file|];
    try by split; [split; [| intros (? & ? & ? & ? & _)] |].
  destruct (Capa.target_kind w target_file) eqn:Hkind.
  1,2: split; [split; [done |] | done];
    intros (? & ? & ? & [= <-] & _ & ? & _); congruence.
  destruct (Capa.create_subprocess_exec w _) as [exc|process] eqn:Hproc.
  { split; [split; [by destruct exc |] | by destruct exc].
    intros (? & ? & ? & [= <-] & _ & _ & ? & _). congruence. }
  destruct (decide (returncode process ≠ 0)) as [Hcode|Hcode].
  { split; [split |].
    - repeat case_match; by simplify_eq.
    - intros (? & ? & ? & [= <-] & _ & _ & ? & ? & _). congruence.
    - repeat case_match; by simplify_eq. }
  assert (returncode process = 0)
    by (by destruct (decide (returncode process = 0))).
  destruct (Capa.decode w (stdout process)) as [exc|decoded] eqn:Hdec.
  { split; [split; [by destruct exc |] | by destruct exc].
    intros (? & ? & ? & [= <-] & _ & _ & ? & _ & ? & _). congruence. }
  split; [split |].
  - intros _. eexists _, _, _. split_and!; eauto.
  - done.
  - intros _. unfold get_findings. cbn [ar_summary ar_findings ar_error
      HashIdIdentifier.create_result default from_option id mbind option_bind].
    split; [| done].
    rewrite lookup_insert_ne, lookup_insert_eq by done. done.
Qed.

(** X14.  Every other result of [Capa.execute] has status "failed", with no
    finding and the text of an error: the message naming the target when it
    is missing or is not a regular file, and "capa binary not found" when
    starting the process raises [FileNotFoundError], whatever the message of
    that exception. *)
Theorem capa_failures_have_no_findings (config : gmap string pyval) :
  let r := Capa.execute text w config in
  (ar_status r ≠ Some "success" →
     ar_status r = Some "failed" ∧ ar_findings r = Some []
     ∧ is_Some (ar_error r))
  ∧ (∀ target_file,
       config !! "target_file" = Some (PStr target_file) →
       Capa.validate_workspace w = inr tt →
       (Capa.target_kind w target_file = Capa.Missing →
        ar_error r = Some ("Target file not found: " +:+ target_file))
       ∧ (Capa.target_kind w target_file = Capa.Directory →
          ar_error r = Some ("Target path is not a file: " +:+ target_file))
       ∧ (Capa.target_kind w target_file = Capa.RegularFile →
          ∀ msg, Capa.create_subprocess_exec w
                   ["capa"; Capa.target_path w target_file; "--json"]
                 = inl (FileNotFoundError msg) →
          ar_error r = Some "capa binary not found")).
Proof.
  cbv zeta. split_and!.
  - unfold Capa.execute.
    destruct (Capa.analyse text w config) as [exc|r] eqn:Hr.
    + intros _. by destruct exc.
    + unfold Capa.analyse in Hr. intros Hns.
      repeat case_match; simplify_eq; try done.
  - intros target_file Hcfg Hws.
    unfold Capa.execute, Capa.analyse, Capa.validate_config, dict_get.
    rewrite Hcfg, Hws. cbn [default from_option id].
    split_and!.
    + by intros ->.
    + by intros ->.
    + intros -> msg ->. done.
Qed.

End CapaModule.

(** ** The binary analysis over the capa activity *)

Section BinaryAnalysisOnAWorker.

Variables (text : PythonText) (host : Worker.Host).
Variable failure : exception → exn.
Variable rest : Activities.

Let env : Activities := implemented text host failure rest.

(** When the attempt of [run_capa] returns: the module loads, the workspace
    exists, and the attempt ends within its timeout. *)
Lemma run_capa_attempt_returns (workspace : string)
    (config : gmap string pyval) (result : ActivityResult) :
  env (run_capa workspace config) = inr result ↔
    (Worker.import_module host "Capa" = inr tt
     ∧ Worker.workspace_exists host workspace = true
     ∧ Worker.construct host "Capa" = inr tt
     ∧ (Worker.seconds host (run_capa workspace config)
        ≤ Worker.capa_timeout)%Z)
    ∧ result = Capa.execute text (Worker.capa_world host workspace) config.
Proof.
  unfold env, implemented, Worker.single_attempt, Worker.run_capa.
  case_decide as Hlate.
  { split; [done | intros [(_ & _ & _ & ?) _]; lia]. }
  destruct (Worker.import_module host "Capa") as [exc|[]];
    [split; [done | by intros [(? & _) _]] |].
  destruct (Worker.workspace_exists host workspace);
    [| split; [done | by intros [(_ & ? & _) _]] ].
  destruct (Worker.construct host "Capa") as [exc|[]];
    [split; [done | by intros [(_ & _ & ? & _) _]] |].
  split.
  - intros [= <-]. split_and!; [done | done | done | lia | done].
  - by intros [_ ->].
Qed.

(** X15.  Over the activity [run_capa] as written, invoked once with a
    timeout of 5 minutes, a binary-analysis run whose download returns ends
    with status "success" exactly when the attempt of the activity returns:
    the module loads, the workspace exists and the attempt ends within the
    timeout.  What capa did plays no part: the findings of the record are
    then those of [Capa.execute], its last step is [fuzzing] with status
    "success", and the record has no [error] entry; when the module
    succeeded, [capabilities_found] of that step is the number of findings of
    the record, and when it failed the record has no finding.  Otherwise the
    run raises with status "error", without findings and without cleanup. *)
Theorem binary_analysis_succeeds_whatever_capa_did
    (info : WorkflowInfo) (target target_file workspace : string) :
  rest (get_target target (info_run_id info) "isolated") = inr workspace →
  let config : gmap string pyval := {[ "target_file" := PStr target_file ]} in
  let module_result :=
    Capa.execute text (Worker.capa_world host workspace) config in
  let attempt_returns :=
    Worker.import_module host "Capa" = inr tt
    ∧ Worker.workspace_exists host workspace = true
    ∧ Worker.construct host "Capa" = inr tt
    ∧ (Worker.seconds host (run_capa workspace config)
       ≤ Worker.capa_timeout)%Z in
  let '(out, st) := BinaryAnalysisWorkflow.run env info target target_file in
  (status (results st) = "success" ↔ attempt_returns)
  ∧ (attempt_returns →
     out = inr (results st)
     ∧ findings (results st) = ar_findings module_result
     ∧ (∃ step, last (steps (results st)) = Some step
          ∧ step_field "step" step = PStr "fuzzing"
          ∧ step_field "status" step = PStr "success"
          ∧ (ar_status module_result = Some "success" →
             step_field "capabilities_found" step
             = PInt (Z.of_nat (length (get_findings module_result)))))
     ∧ (ar_status module_result ≠ Some "success" →
        findings (results st) = Some [])
     ∧ error (results st) = None)
  ∧ (¬ attempt_returns →
     (∃ e, out = inl e)
     ∧ status (results st) = "error"
     ∧ findings (results st) = None
     ∧ invocations is_cleanup_cache st = 0%nat).
Proof.
  intros Hfetch. cbv zeta.
  set (config := {[ "target_file" := PStr target_file ]} : gmap string pyval).
  destruct (BinaryAnalysisWorkflow.run env info target target_file)
    as [out st] eqn:Hrun.
  unfold_run Hrun.
  assert (env (get_target target (info_run_id info) "isolated")
          = inr workspace) as Hfetch' by exact Hfetch.
  rewrite Hfetch' in Hrun. cbv beta iota zeta in Hrun.
  fold config in Hrun.
  destruct (env (run_capa workspace config)) as [e|result] eqn:Hcapa.
  - assert (¬ (Worker.import_module host "Capa" = inr tt
               ∧ Worker.workspace_exists host workspace = true
               ∧ Worker.construct host "Capa" = inr tt
               ∧ (Worker.seconds host (run_capa workspace config)
                  ≤ Worker.capa_timeout)%Z)) as Hnot.
    { intros Hall.
      assert (env (run_capa workspace config)
              = inr (Capa.execute text (Worker.capa_world host workspace)
                       config)) as Hr
        by (by apply run_capa_attempt_returns).
      congruence. }
    cbv beta iota zeta in Hrun. simplify_eq. observe.
    split_and!; [split; [done | by intros ?] | by intros ? |].
    intros _. split_and!; eauto.
  - apply run_capa_attempt_returns in Hcapa as [Hall ->].
    cbv beta iota zeta in Hrun.
    set (module_result := Capa.execute text (Worker.capa_world host workspace)
                            config) in *.
    pose proof (capabilities_found_is_the_number_of_findings text
                  (Worker.capa_world host workspace) config)
      as (Hfs & Hn & Hfailed).
    fold module_result in Hfs, Hn, Hfailed.
    run_cases env Hrun; observe; rewrite <- Hfs;
      (split_and!; [split; [done | by intros _] | | by intros ?]);
      intros _; split_and!; try done.
    all: eexists; split; [reflexivity |];
      unfold step_field, dict_get;
      split_and!; [by rewrite lookup_insert_eq
                  | by rewrite lookup_insert_ne, lookup_insert_eq
                  | rewrite !lookup_insert_ne, lookup_insert_eq by done;
                    exact Hn].
Qed.

End BinaryAnalysisOnAWorker.

(** ** Failed identifications *)

Section FailedIdentification.

Import HashIdIdentifier.

Variable identifyHash : string → exn + list HashInfo.
Variable validate_workspace : exn + unit.
Variable config : hashid_config.

(** X16.  [HashIdIdentifier.execute] returns status "failed" exactly when
    the configuration has no hash or an empty one, the workspace is not
    valid, or the hashid library raises; the result then has no finding and
    carries the text of the exception, which for a missing or empty hash is
    the message of [validate_config].  A hash that the library does not
    recognise is not a failure: every other result has status "success". *)
Theorem identification_fails_without_findings :
  let r := execute identifyHash validate_workspace config in
  (ar_status r = Some "failed" ↔
     hash config = None ∨ hash config = Some ""
     ∨ (∃ exc, validate_workspace = inl exc)
     ∨ (∃ hash_str exc,
          hash config = Some hash_str ∧ identifyHash hash_str = inl exc))
  ∧ (ar_status r = Some "failed" →
     ar_findings r = Some [] ∧ is_Some (ar_error r))
  ∧ (hash config = None ∨ hash config = Some "" →
     ar_error r
     = Some "'hash' must be provided for hash identification")
  ∧ (ar_status r ≠ Some "failed" → ar_status r = Some "success").
Proof.
  cbv zeta. unfold execute, identify, validate_config.
  destruct (hash config) as [[|c hash_str]|] eqn:Hhash.
  - split_and!; [split; [eauto | done] | cbn; eauto | done | done].
  - destruct validate_workspace as [exc|[]] eqn:Hws.
    { split_and!; [split; [eauto 6 | done] | cbn; eauto | by intros [|]
                  | done]. }
    destruct (identifyHash (String c hash_str)) as [exc|candidates] eqn:Hlib.
    + split_and!; [split; [eauto 8 | done] | cbn; eauto | by intros [|]
                  | done].
    + split_and!; [split; [done |] | done | by intros [|] | done].
      intros [|[|[[? ?]|(? & ? & ? & ?)]]]; simplify_eq; congruence.
  - split_and!; [split; [eauto | done] | cbn; eauto | done | done].
Qed.

End FailedIdentification.

(** ** The properties above at concrete inputs *)

(** A run is the pair of its outcome and its final state. *)
Lemma run_equation {A B : Type} (run : A * B) (out : A) :
  run.1 = out → run = (out, run.2).
Proof. destruct run as [a b]. by intros <-. Qed.

(** X1 on an LLM secret detection whose download fails. *)
Lemma raised_runs_record_the_error_witness :
  let env :=
    world (with_get_target (inl (ActivityError "download failed"))
             (all_fine [])) in
  let run :=
    run_pipeline env info0 (LlmSecretDetection "target-1" no_params) in
  run.1 = inl (ActivityError "download failed")
  ∧ status (results run.2) = "error"
  ∧ error (results run.2) = Some "download failed"
  ∧ calls run.2 = [get_target "target-1" "run-1" "shared"].
Proof.
  cbv zeta.
  set (run := run_pipeline _ _ _).
  assert (run = (inl (ActivityError "download failed"), run.2)) as Hrun
    by (apply run_equation; vm_compute; reflexivity).
  destruct (raised_runs_record_the_error _ _ _ _ _ Hrun)
    as (Hstatus & Herror & _).
  split_and!; [vm_compute; reflexivity | exact Hstatus | exact Herror
              | vm_compute; reflexivity].
Defined.

(** X2 on a hash cracking that identifies MD5 and cracks it. *)
Lemma returning_runs_record_their_analysis_steps_witness :
  let env := world (all_fine [md5_info]) in
  let run := run_pipeline env info0 (HashCracking "target-1" md5_hash None) in
  run.1 = inr (results run.2)
  ∧ status (results run.2) = "success"
  ∧ step_names (results run.2)
    = [PStr "download_target"; PStr "hash_identification";
       PStr "hash_cracking"].
Proof.
  cbv zeta.
  set (run := run_pipeline _ _ _).
  assert (run = (inr (results run.2), run.2)) as Hrun
    by (apply run_equation; vm_compute; reflexivity).
  pose proof (returning_runs_record_their_analysis_steps _ _ _ _ _ Hrun)
    as Hsteps.
  split_and!; [vm_compute; reflexivity | vm_compute; reflexivity |].
  rewrite Hsteps. vm_compute. reflexivity.
Defined.

(** X3 on a binary analysis. *)
Lemma success_carries_the_analysis_result_witness :
  let env := world (all_fine []) in
  let run := run_pipeline env info0 (BinaryAnalysis "target-1" "sample.bin") in
  run.1 = inr (results run.2)
  ∧ status (results run.2) = "success"
  ∧ findings (results run.2) = ar_findings capabilities
  ∧ summary (results run.2) = ar_summary capabilities.
Proof.
  cbv zeta.
  set (run := run_pipeline _ _ _).
  assert (run = (inr (results run.2), run.2)) as Hrun
    by (apply run_equation; vm_compute; reflexivity).
  assert (status (results run.2) = "success") as Hok
    by (vm_compute; reflexivity).
  destruct (success_carries_the_analysis_result _ _ _ _ _ Hrun Hok)
    as (workspace & analysis & Hfetch & Hcapa & Hfindings & Hsummary).
  change (@inr exn ActivityResult capabilities = inr analysis) in Hcapa.
  injection Hcapa as <-.
  split_and!; [vm_compute; reflexivity | exact Hok | exact Hfindings
              | exact Hsummary].
Defined.

(** X4 on the cleanup of a hash cracking with a hint. *)
Lemma activities_share_the_fetched_workspace_witness :
  let env := world (all_fine []) in
  let st :=
    (run_pipeline env info0 (HashCracking "target-1" md5_hash (Some 0))).2 in
  cleanup_cache "/cache/run-1" "isolated" ∈ calls st
  ∧ head (calls st) = Some (get_target "target-1" "run-1" "isolated")
  ∧ env (get_target "target-1" "run-1" "isolated") = inr "/cache/run-1".
Proof.
  cbv zeta. set (run := run_pipeline _ _ _).
  assert (cleanup_cache "/cache/run-1" "isolated" ∈ calls run.2) as Hin
    by (vm_compute; repeat constructor).
  destruct (activities_share_the_fetched_workspace
              (world (all_fine [])) info0
              (HashCracking "target-1" md5_hash (Some 0)))
    as (Hfirst & Hshared & Hmode).
  split_and!; [exact Hin | exact Hfirst |].
  exact (Hshared _ _ Hin eq_refl).
Defined.

(** X6 on a result that claims one match and carries no finding. *)
Lemma unreadable_identification_is_an_error_witness :
  let env := world (with_run_hashid (inr one_match_no_finding) (all_fine [])) in
  let '(out, st) :=
    HashCrackingWorkflow.run env info0 "target-1" md5_hash None in
  out = inl (IndexError "list index out of range")
  ∧ status (results st) = "error"
  ∧ invocations is_cleanup_cache st = 0%nat.
Proof.
  pose proof (unreadable_identification_is_an_error
                (world (with_run_hashid (inr one_match_no_finding)
                          (all_fine [])))
                info0 "target-1" md5_hash "/cache/run-1" one_match_no_finding
                (IndexError "list index out of range")
                eq_refl eq_refl eq_refl
                (or_intror (conj eq_refl (conj eq_refl eq_refl)))) as H.
  cbv zeta. revert H.
  destruct (HashCrackingWorkflow.run _ _ _ _ _) as [out st].
  intros (Hout & Hstatus & _ & Hcalls).
  split_and!; [exact Hout | exact Hstatus |].
  unfold invocations. by rewrite Hcalls.
Defined.

(** X8 on a run of hashcat that exits with code 255. *)
Lemma hashcat_fails_without_findings_witness :
  let r := Hashcat.execute ascii_text (hashcat_exits 255 None) md5_config in
  ar_status r = Some "failed"
  ∧ ar_findings r = Some []
  ∧ ar_error r = Some "Hashcat failed with exit code 255: No error output"
  ∧ (ar_metadata r ≫= (.!! "hash_input")) = Some (PStr md5_hash).
Proof.
  cbv zeta.
  destruct (hashcat_fails_without_findings ascii_text
              (hashcat_exits 255 None) md5_config) as (Hiff & Hfailed & _).
  assert (ar_status (Hashcat.execute ascii_text (hashcat_exits 255 None)
                       md5_config) = Some "failed") as Hstatus.
  { apply Hiff. do 4 right. left. eexists. split; [reflexivity |].
    vm_compute. discriminate. }
  destruct (Hfailed Hstatus) as (Hfindings & _ & Hmeta).
  split_and!; [exact Hstatus | exact Hfindings | vm_compute; reflexivity
              | exact Hmeta].
Defined.

(** X9 on a run of hashcat that leaves the plaintext in the pot file. *)
Lemma hashcat_success_reports_one_finding_witness :
  let w := hashcat_exits 0 (Some (inr ("password" +:+ newline))) in
  let r := Hashcat.execute ascii_text w md5_config in
  r = cracked
  ∧ ar_findings r
    = Some [Hashcat.cracked_finding md5_hash "0" "password"]
  ∧ (ar_summary r ≫= (.!! "plaintext")) = Some (PStr "password").
Proof.
  cbv zeta.
  destruct (hashcat_success_reports_one_finding ascii_text
              (hashcat_exits 0 (Some (inr ("password" +:+ newline))))
              md5_config eq_refl) as (Hfindings & _ & _ & _ & Hsummary & _).
  split_and!; [vm_compute; reflexivity | exact Hfindings | exact Hsummary].
Defined.

(** X11 on a worker whose hashcat exits with code 255 after a minute, and
    on one where the attempt takes 40 minutes. *)
Lemma hash_cracking_with_hint_succeeds_whatever_hashcat_did_witness :
  let run (elapsed : Z) :=
    HashCrackingWorkflow.run
      (implemented ascii_text
         (worker (hashcat_exits 255 None) (capa_exits 0 (inr JNull)) elapsed)
         activity_failed (world (all_fine [])))
      info0 "target-1" md5_hash (Some 0) in
  ar_status (Hashcat.execute ascii_text (hashcat_exits 255 None) md5_config)
    = Some "failed"
  ∧ status (results (run 60).2) = "success"
  ∧ findings (results (run 60).2) = Some []
  ∧ error (results (run 60).2) = None
  ∧ status (results (run 2400).2) = "error"
  ∧ invocations is_cleanup_cache (run 2400).2 = 0%nat.
Proof.
  cbv beta zeta.
  pose proof (hash_cracking_with_hint_succeeds_whatever_hashcat_did
                ascii_text
                (worker (hashcat_exits 255 None) (capa_exits 0 (inr JNull)) 60)
                activity_failed (world (all_fine []))
                info0 "target-1" md5_hash "/cache/run-1" 0 eq_refl) as Hin.
  pose proof (hash_cracking_with_hint_succeeds_whatever_hashcat_did
                ascii_text
                (worker (hashcat_exits 255 None) (capa_exits 0 (inr JNull))
                   2400)
                activity_failed (world (all_fine []))
                info0 "target-1" md5_hash "/cache/run-1" 0 eq_refl) as Hout.
  cbv zeta in Hin, Hout. revert Hin Hout.
  destruct (HashCrackingWorkflow.run _ _ _ _ _) as [out st].
  destruct (HashCrackingWorkflow.run _ _ _ _ _) as [out' st'].
  intros (Hiff & Hreturns & _) (_ & _ & Hraises).
  assert (Worker.import_module
            (worker (hashcat_exits 255 None) (capa_exits 0 (inr JNull)) 60)
            "Hashcat" = inr tt
          ∧ Worker.workspace_exists
              (worker (hashcat_exits 255 None) (capa_exits 0 (inr JNull)) 60)
              "/cache/run-1" = true
          ∧ Worker.construct
              (worker (hashcat_exits 255 None) (capa_exits 0 (inr JNull)) 60)
              "Hashcat" = inr tt
          ∧ (Worker.seconds
               (worker (hashcat_exits 255 None) (capa_exits 0 (inr JNull)) 60)
               (run_hashcat "/cache/run-1"
                  {| hc_hash := md5_hash; hash_type := PInt 0 |})
             ≤ Worker.hashcat_timeout)%Z) as Hall
    by (split_and!; [reflexivity .. | vm_compute; discriminate]).
  destruct (Hreturns Hall) as (_ & Hfindings & _ & _ & Herror).
  destruct Hraises as (_ & Hstatus & _ & Hcleanup).
  { intros (_ & _ & _ & Hlate). vm_compute in Hlate. by apply Hlate. }
  split_and!; [vm_compute; reflexivity | by apply Hiff | exact Hfindings
              | exact Herror | exact Hstatus | exact Hcleanup].
Defined.

(** X12 on a document whose second rule cannot be read. *)
Lemma capa_findings_are_the_rules_before_the_first_unreadable_one_witness :
  let rules := [debugger_rule; broken_rule; socket_rule] in
  let w := capa_exits 0 (inr (capa_document rules)) in
  let found := Capa._parse_capa_output ascii_text w "{...}" in
  namespace_of socket_rule.2 = Some "communication/socket/tcp"
  ∧ Forall2 (is_capability_of ascii_text) [debugger_rule] found
  ∧ length found = 1%nat
  ∧ map severity found = ["high"].
Proof.
  cbv zeta.
  destruct (capa_findings_are_the_rules_before_the_first_unreadable_one
              ascii_text
              (capa_exits 0 (inr (capa_document
                                    [debugger_rule; broken_rule; socket_rule])))
              "{...}") as (_ & _ & Hrules).
  destruct (Hrules _ [debugger_rule; broken_rule; socket_rule]
              ltac:(vm_compute; discriminate) eq_refl eq_refl)
    as [_ Hcut].
  assert (Forall2 (is_capability_of ascii_text) [debugger_rule]
            (Capa._parse_capa_output ascii_text
               (capa_exits 0 (inr (capa_document
                                     [debugger_rule; broken_rule;
                                      socket_rule])))
               "{...}")) as Hfound.
  { apply (Hcut [debugger_rule] broken_rule [socket_rule] eq_refl);
      [| reflexivity].
    repeat constructor. by eexists. }
  split_and!; [reflexivity | exact Hfound
              | by rewrite <- (Forall2_length _ _ _ Hfound)
              | vm_compute; reflexivity].
Defined.

(** X13 on a document with two readable rules. *)
Lemma capa_success_counts_its_findings_witness :
  let w := capa_exits 0 (inr (capa_document [rc4_rule; socket_rule])) in
  let r := Capa.execute ascii_text w {[ "target_file" := PStr "sample.bin" ]} in
  ar_status r = Some "success"
  ∧ (ar_summary r ≫= (.!! "capabilities_found")) = Some (PInt 2)
  ∧ map severity (get_findings r) = ["low"; "medium"].
Proof.
  cbv zeta.
  destruct (capa_success_counts_its_findings ascii_text
              (capa_exits 0 (inr (capa_document [rc4_rule; socket_rule])))
              {[ "target_file" := PStr "sample.bin" ]}) as [_ Hcount].
  assert (ar_status (Capa.execute ascii_text
                       (capa_exits 0 (inr (capa_document
                                             [rc4_rule; socket_rule])))
                       {[ "target_file" := PStr "sample.bin" ]})
          = Some "success") as Hstatus by (vm_compute; reflexivity).
  destruct (Hcount Hstatus) as [Hsummary _].
  split_and!; [exact Hstatus | | vm_compute; reflexivity].
  rewrite Hsummary. vm_compute. reflexivity.
Defined.

(** X14 on a target that is a directory. *)
Lemma capa_failures_have_no_findings_witness :
  let w := capa_exits 0 (inr (capa_document [rc4_rule])) in
  let r := Capa.execute ascii_text w {[ "target_file" := PStr "lib" ]} in
  ar_status r = Some "failed"
  ∧ ar_findings r = Some []
  ∧ ar_error r = Some "Target path is not a file: lib".
Proof.
  cbv zeta.
  destruct (capa_failures_have_no_findings ascii_text
              (capa_exits 0 (inr (capa_document [rc4_rule])))
              {[ "target_file" := PStr "lib" ]}) as [Hfailed Herror].
  destruct (Hfailed ltac:(vm_compute; discriminate))
    as (Hstatus & Hfindings & _).
  destruct (Herror "lib" ltac:(vm_compute; reflexivity) eq_refl)
    as (_ & Hdirectory & _).
  split_and!; [exact Hstatus | exact Hfindings | exact (Hdirectory eq_refl)].
Defined.

(** X15 on a worker without the target file, where the attempt takes a
    minute, and on one where it takes ten. *)
Lemma binary_analysis_succeeds_whatever_capa_did_witness :
  let run (elapsed : Z) :=
    BinaryAnalysisWorkflow.run
      (implemented ascii_text
         (worker (hashcat_exits 0 None)
            (capa_exits 0 (inr (capa_document [rc4_rule]))) elapsed)
         activity_failed (world (all_fine [])))
      info0 "target-1" "missing.bin" in
  ar_error (Capa.execute ascii_text
              (capa_exits 0 (inr (capa_document [rc4_rule])))
              {[ "target_file" := PStr "missing.bin" ]})
    = Some "Target file not found: missing.bin"
  ∧ status (results (run 60).2) = "success"
  ∧ findings (results (run 60).2) = Some []
  ∧ error (results (run 60).2) = None
  ∧ status (results (run 600).2) = "error"
  ∧ invocations is_cleanup_cache (run 600).2 = 0%nat.
Proof.
  cbv beta zeta.
  pose proof (binary_analysis_succeeds_whatever_capa_did ascii_text
                (worker (hashcat_exits 0 None)
                   (capa_exits 0 (inr (capa_document [rc4_rule]))) 60)
                activity_failed (world (all_fine []))
                info0 "target-1" "missing.bin" "/cache/run-1" eq_refl) as Hin.
  pose proof (binary_analysis_succeeds_whatever_capa_did ascii_text
                (worker (hashcat_exits 0 None)
                   (capa_exits 0 (inr (capa_document [rc4_rule]))) 600)
                activity_failed (world (all_fine []))
                info0 "target-1" "missing.bin" "/cache/run-1" eq_refl) as Hout.
  cbv zeta in Hin, Hout. revert Hin Hout.
  destruct (BinaryAnalysisWorkflow.run _ _ _ _) as [out st].
  destruct (BinaryAnalysisWorkflow.run _ _ _ _) as [out' st'].
  intros (Hiff & Hreturns & _) (_ & _ & Hraises).
  assert (Worker.import_module
            (worker (hashcat_exits 0 None)
               (capa_exits 0 (inr (capa_document [rc4_rule]))) 60)
            "Capa" = inr tt
          ∧ Worker.workspace_exists
              (worker (hashcat_exits 0 None)
                 (capa_exits 0 (inr (capa_document [rc4_rule]))) 60)
              "/cache/run-1" = true
          ∧ Worker.construct
              (worker (hashcat_exits 0 None)
                 (capa_exits 0 (inr (capa_document [rc4_rule]))) 60)
              "Capa" = inr tt
          ∧ (Worker.seconds
               (worker (hashcat_exits 0 None)
                  (capa_exits 0 (inr (capa_document [rc4_rule]))) 60)
               (run_capa "/cache/run-1"
                  {[ "target_file" := PStr "missing.bin" ]})
             ≤ Worker.capa_timeout)%Z) as Hall
    by (split_and!; [reflexivity .. | vm_compute; discriminate]).
  destruct (Hreturns Hall) as (_ & _ & _ & Hnone & Herror).
  destruct Hraises as (_ & Hstatus & _ & Hcleanup).
  { intros (_ & _ & _ & Hlate). vm_compute in Hlate. by apply Hlate. }
  split_and!; [vm_compute; reflexivity | by apply Hiff | | exact Herror
              | exact Hstatus | exact Hcleanup].
  apply Hnone. vm_compute. discriminate.
Defined.

(** X16 on an empty hash. *)
Lemma identification_fails_without_findings_witness :
  let r :=
    HashIdIdentifier.execute (λ _, inr [md5_info]) (inr tt)
      {| hash := Some "" |} in
  ar_status r = Some "failed"
  ∧ ar_findings r = Some []
  ∧ ar_error r = Some "'hash' must be provided for hash identification".
Proof.
  cbv zeta.
  destruct (identification_fails_without_findings (λ _, inr [md5_info])
              (inr tt) {| hash := Some "" |})
    as (Hiff & Hfailed & Herror & _).
  assert (ar_status (HashIdIdentifier.execute (λ _, inr [md5_info]) (inr tt)
                       {| hash := Some "" |}) = Some "failed") as Hstatus
    by (apply Hiff; right; left; reflexivity).
  destruct (Hfailed Hstatus) as (Hfindings & _).
  split_and!; [exact Hstatus | exact Hfindings
              | exact (Herror (or_intror eq_refl))].
Defined.

(** X17 on a hash cracking with two candidates. *)
Lemma returned_records_are_complete_witness :
  let env := world (all_fine [md5_info; md4_info]) in
  let run := run_pipeline env info0 (HashCracking "target-1" md5_hash None) in
  run.1 = inr (results run.2)
  ∧ status (results run.2) = "needs_selection"
  ∧ is_Some (sarif (results run.2))
  ∧ ¬ is_Some (error (results run.2)).
Proof.
  cbv zeta. set (run := run_pipeline _ _ _).
  assert (run = (inr (results run.2), run.2)) as Hrun
    by (apply run_equation; vm_compute; reflexivity).
  destruct (returned_records_are_complete _ _ _ _ _ Hrun)
    as (_ & _ & _ & Hsarif & Herror).
  split_and!; [vm_compute; reflexivity | vm_compute; reflexivity
              | exact Hsarif |].
  intros Hset. apply Herror in Hset. vm_compute in Hset. discriminate Hset.
Defined.

(** X7 on a run that sets the model, no provider and a limit of files. *)
Lemma scan_config_keeps_truthy_parameters_witness :
  let p :=
    {| LlmSecretDetectionWorkflow.agent_url := None;
       LlmSecretDetectionWorkflow.llm_model := Some "gpt-4o-mini";
       LlmSecretDetectionWorkflow.llm_provider := Some "";
       LlmSecretDetectionWorkflow.max_files := Some 50;
       LlmSecretDetectionWorkflow.max_file_size := Some 0;
       LlmSecretDetectionWorkflow.timeout := None;
       LlmSecretDetectionWorkflow.file_patterns := Some [] |} in
  LlmSecretDetectionWorkflow.scan_config p !! "max_files" = Some (PInt 50)
  ∧ LlmSecretDetectionWorkflow.scan_config p !! "llm_model"
    = Some (PStr "gpt-4o-mini").
Proof.
  cbv zeta. split.
  - apply scan_config_keeps_truthy_parameters.
    do 3 right. left. split; [reflexivity |].
    exists 50. split_and!; [reflexivity | discriminate | reflexivity].
  - apply scan_config_keeps_truthy_parameters.
    right. left. split; [reflexivity |].
    exists "gpt-4o-mini".
    split_and!; [reflexivity | discriminate | reflexivity].
Defined.
